(** * The SparkML-on-EMR / MLeap / SageMaker abalone notebook

    A shallow embedding of
    [sagemaker-python-sdk/sparkml_serving_emr_mleap_abalone/sparkml_serving_emr_mleap_abalone.ipynb].

    The notebook is a straight-line script: every code cell is a sequence
    of calls into external libraries (PySpark, MLeap, the Python standard
    library, boto3 and the SageMaker SDK).  The embedding keeps

    - the Python values the cells build (dicts, lists, strings, floats,
      constructor arguments) as Rocq data;
    - every call that leaves the notebook as an operation [op] with its
      arguments, issued against an arbitrary outside world [exec] that may
      answer or raise;
    - the cells as programs [prog] in a small monad whose only control
      constructs are sequencing and Python's [with] statement, the two the
      notebook uses. *)

From Stdlib Require Import QArith Ascii String List ZArith Lia.
From stdpp Require Import base option strings list gmap.

Set Warnings "-register-all".

Close Scope Q_scope.
Open Scope string_scope.
Open Scope list_scope.

(** ** Python values *)

(** A Python [float] written in the notebook is kept as the decimal the
    literal denotes ([0.515] is [515 # 1000]); the notebook performs no
    arithmetic on floats, it only passes them on. *)
Definition pyfloat : Type := Q.

(** Dicts are association lists in insertion order, lists are lists. *)
Inductive pyval : Type :=
| VStr (s : string)
| VFloat (x : pyfloat)
| VList (l : list pyval)
| VDict (kvs : list (string * pyval)).

(** [d[k]] on a dict, [None] on anything else or a missing key. *)
Fixpoint assoc {A : Type} (k : string) (kvs : list (string * A)) : option A :=
  match kvs with
  | [] => None
  | (k', v) :: rest => if String.eqb k k' then Some v else assoc k rest
  end.

Definition dict_get (k : string) (v : pyval) : option pyval :=
  match v with
  | VDict kvs => assoc k kvs
  | _ => None
  end.

(** ** PySpark objects built by constructor calls *)

Inductive DataType : Type := StringType | DoubleType.

Record StructField : Type := mkStructField {
  sf_name : string;
  sf_dataType : DataType;
  sf_nullable : bool
}.

Definition StructType : Type := list StructField.

(** The four stage constructors the notebook calls, with the keyword
    arguments it passes. *)
Inductive stage : Type :=
| StringIndexer (inputCol outputCol : string)
| OneHotEncoderEstimator (inputCols outputCols : list string)
| VectorAssembler (inputCols : list string) (outputCol : string)
| RandomForestRegressor (labelCol featuresCol : string) (maxDepth numTrees : nat).

Record Pipeline : Type := mkPipeline { stages : list stage }.

Record RegressionEvaluator : Type := mkRegressionEvaluator {
  ev_labelCol : string;
  ev_predictionCol : string;
  ev_metricName : string
}.

(** ** Handles to objects that live outside the notebook *)

Inductive DataFrame : Type := DF (id : nat).
Inductive PipelineModel : Type := PM (id : nat).
Inductive ZipFile : Type := ZF (id : nat).
Inductive TarFile : Type := TF (id : nat).
Inductive S3Resource : Type := S3R (id : nat).
Inductive BotoSession : Type := BSess (id : nat).
Inductive BotoClient : Type := BCli (id : nat).
Inductive Session : Type := Sess (id : nat).
Inductive Response : Type := Resp (body : string).

(** ** SageMaker SDK objects built by constructor calls *)

Record SparkMLModel : Type := mkSparkMLModel {
  model_data : string;
  role : string;
  sagemaker_session : Session;
  name : string;
  env : list (string * string)
}.

Inductive serializer : Type := CSVSerializer | JSONSerializer.

Record Predictor : Type := mkPredictor {
  p_endpoint_name : string;
  p_sagemaker_session : Session;
  p_serializer : serializer
}.

(** What [print] is given. *)
Inductive printable : Type :=
| PrStr (s : string)
| PrFormat (fmt : string) (x : pyfloat)      (* "..%g.." % x *)
| PrResponse (r : Response).

(** ** Exceptions *)

Inductive exn : Type :=
| FileNotFoundError (path : string)
| FileExistsError (path : string)
| IsADirectoryError (path : string)
| NotADirectoryError (path : string)
| BadZipFile (path : string)
| ExternalError (msg : string).

(** ** Operations: the calls that leave the notebook *)

Inductive op : Type :=
(* kernel and imports *)
| Magic (line : string)
| Import (module : string)
(* PySpark *)
| ReadCsv (path : string) (header : bool) (schema : StructType)
| DfShow (df : DataFrame) (n : nat)
| RandomSplit (df : DataFrame) (weights : list pyfloat) (seed : option Z)
| Fit (p : Pipeline) (df : DataFrame)
| Transform (m : PipelineModel) (df : DataFrame)
| Select (df : DataFrame) (cols : list string)
| Evaluate (ev : RegressionEvaluator) (df : DataFrame)
| Print (v : printable)
(* MLeap *)
| SerializeToBundle (m : PipelineModel) (uri : string) (df : DataFrame)
(* zipfile, tarfile, os, shutil *)
| ZipOpen (path : string)
| ExtractAll (zf : ZipFile) (dest : string)
| ZipExit (zf : ZipFile)
| TarOpen (path : string) (mode : string)
| TarAdd (tar : TarFile) (src : string) (arcname : string)
| TarExit (tar : TarFile)
| OsRemove (path : string)
| Rmtree (path : string)
(* boto3 *)
| Boto3Resource (service : string)
| UploadFile (s3 : S3Resource) (bucket : string) (filename key : string)
| Boto3Session
| Boto3Client (service : string)
(* time, SageMaker SDK *)
| Strftime (fmt : string)                      (* strftime(fmt, gmtime()) *)
| SagemakerSession (boto_session : BotoSession)
    (sagemaker_client sagemaker_runtime_client : BotoClient)
| GetExecutionRole
| Deploy (m : SparkMLModel) (initial_instance_count : nat)
    (instance_type : string) (endpoint_name : string)
| Predict (p : Predictor) (payload : pyval)
| DeleteEndpoint (s : Session) (endpoint_name : string).

(** What each call returns to the notebook when it does not raise.
    [randomSplit] is given two weights and its result is unpacked into two
    names; [deploy] returns a predictor that the notebook discards. *)
Definition ret (o : op) : Type :=
  match o with
  | ReadCsv _ _ _ => DataFrame
  | RandomSplit _ _ _ => (DataFrame * DataFrame)%type
  | Fit _ _ => PipelineModel
  | Transform _ _ => DataFrame
  | Select _ _ => DataFrame
  | Evaluate _ _ => pyfloat
  | ZipOpen _ => ZipFile
  | TarOpen _ _ => TarFile
  | Boto3Resource _ => S3Resource
  | Boto3Session => BotoSession
  | Boto3Client _ => BotoClient
  | Strftime _ => string
  | SagemakerSession _ _ _ => Session
  | GetExecutionRole => string
  | Predict _ _ => Response
  | _ => unit
  end.

(** One completed call: the operation and what came back. *)
Inductive event : Type :=
| Ev (o : op) (r : exn + ret o).

Definition ev_op (e : event) : op :=
  match e with Ev o _ => o end.

Definition ev_error (e : event) : option exn :=
  match e with
  | Ev _ (inl x) => Some x
  | Ev _ (inr _) => None
  end.

Definition ops (tr : list event) : list op := List.map ev_op tr.

(** ** Programs *)

(** [WithExit body ext] is the body of a [with] statement whose context
    manager has been entered: [ext] (the manager's [__exit__]) runs when
    the body finishes, whether it returned or raised. *)
Inductive prog : Type -> Type :=
| Ret {A : Type} (a : A) : prog A
| Call (o : op) : prog (ret o)
| Bind {A B : Type} (p : prog A) (k : A -> prog B) : prog B
| WithExit {A : Type} (body : prog A) (ext : op) : prog A.

Declare Scope prog_scope.
Delimit Scope prog_scope with prog.
Notation "x <- c ;; k" := (Bind c (fun x => k))
  (at level 100, c at next level, right associativity) : prog_scope.
Notation "c ;; k" := (Bind c (fun _ => k))
  (at level 100, right associativity) : prog_scope.
Open Scope prog_scope.

Section Run.

(** The outside world: any state, any answers. *)
Context {W : Type}.
Variable exec : forall o : op, W -> W * (exn + ret o).

(** Python's evaluation order.  A raising call ends the enclosing
    sequence; a [with] body that raised still runs the exit call, and
    the exception that leaves the [with] statement is the body's, unless
    the exit call raises itself (neither [ZipFile.__exit__] nor
    [TarFile.__exit__] suppresses an exception). *)
Fixpoint run {A : Type} (p : prog A) (w : W) : list event * (exn + A) * W :=
  match p with
  | Ret a => ([], inr a, w)
  | Call o =>
      let '(w', r) := exec o w in ([Ev o r], r, w')
  | Bind p k =>
      let '(tr, r, w') := run p w in
      match r with
      | inl e => (tr, inl e, w')
      | inr a => let '(tr', r', w'') := run (k a) w' in (tr ++ tr', r', w'')
      end
  | WithExit body ext =>
      let '(tr, r, w') := run body w in
      let '(w'', x) := exec ext w' in
      (tr ++ [Ev ext x],
       match x with
       | inl e => inl e
       | inr _ => r
       end,
       w'')
  end.

End Run.

(** ** Pure library functions the cells call *)

(** [os.path.join(a, b)] on POSIX. *)
Definition starts_with_slash (s : string) : bool :=
  match s with
  | String c _ => Ascii.eqb c "/"
  | EmptyString => false
  end.

Fixpoint ends_with_slash (s : string) : bool :=
  match s with
  | EmptyString => false
  | String c EmptyString => Ascii.eqb c "/"
  | String _ r => ends_with_slash r
  end.

Definition os_path_join (a b : string) : string :=
  if starts_with_slash b then b
  else if ends_with_slash a then a +:+ b
  else match a with
       | EmptyString => b
       | _ => a +:+ "/" +:+ b
       end.

(** [tmpl.format(args...)] for templates whose only fields are [{}]. *)
Fixpoint str_format (tmpl : string) (args : list string) : string :=
  match tmpl with
  | String "{" (String "}" rest) =>
      match args with
      | a :: args' => a +:+ str_format rest args'
      | [] => str_format rest []
      end
  | String c rest => String c (str_format rest args)
  | EmptyString => EmptyString
  end.

(** *** [json.dumps(obj, indent=n)] *)

Definition dquote : ascii := "034"%char.
Definition backslash : ascii := "092"%char.
Definition newline : ascii := "010"%char.

Definition str1 (c : ascii) : string := String c EmptyString.

Definition hex_digit (n : nat) : ascii :=
  ascii_of_nat (if Nat.ltb n 10 then 48 + n else 87 + n).

(** The escapes of the ASCII-only encoder. *)
Definition json_escape_char (c : ascii) : string :=
  let n := nat_of_ascii c in
  if Ascii.eqb c dquote then String backslash (str1 dquote)
  else if Ascii.eqb c backslash then String backslash (str1 backslash)
  else if Nat.eqb n 10 then String backslash "n"
  else if Nat.eqb n 13 then String backslash "r"
  else if Nat.eqb n 9 then String backslash "t"
  else if Nat.eqb n 8 then String backslash "b"
  else if Nat.eqb n 12 then String backslash "f"
  else if Nat.ltb n 32 || Nat.leb 127 n then
    String backslash
      ("u00" +:+ String (hex_digit (n / 16)) (str1 (hex_digit (n mod 16))))
  else str1 c.

Fixpoint json_escape (s : string) : string :=
  match s with
  | EmptyString => EmptyString
  | String c r => json_escape_char c +:+ json_escape r
  end.

Definition json_string (s : string) : string :=
  String dquote (json_escape s +:+ str1 dquote).

Fixpoint spaces (n : nat) : string :=
  match n with
  | O => EmptyString
  | S n' => String " " (spaces n')
  end.

Fixpoint string_of_digits (ds : list nat) : string :=
  match ds with
  | [] => EmptyString
  | d :: r => String (ascii_of_nat (48 + d)) (string_of_digits r)
  end.

(** Digits of [r / d] after the point, until the remainder is zero. *)
Fixpoint frac_digits (fuel : nat) (r d : Z) : list nat :=
  match fuel with
  | O => []
  | S fuel' =>
      if Z.eqb r 0 then []
      else Z.to_nat (r * 10 / d) :: frac_digits fuel' (r * 10 mod d) d
  end.

Fixpoint nat_digits (fuel : nat) (n : nat) (acc : list nat) : list nat :=
  match fuel with
  | O => acc
  | S fuel' =>
      if Nat.ltb n 10 then n :: acc
      else nat_digits fuel' (n / 10) (n mod 10 :: acc)
  end.

Definition string_of_nat (n : nat) : string :=
  string_of_digits (nat_digits (S n) n []).

(** [repr] of a float in positional notation: [0.515], [1.0]. *)
Definition float_repr (x : pyfloat) : string :=
  let n := Z.abs (Qnum x) in
  let d := Zpos (Qden x) in
  let frac := frac_digits 17 (n mod d) d in
  (if Z.ltb (Qnum x) 0 then "-" else "")
  +:+ string_of_nat (Z.to_nat (n / d)) +:+ "."
  +:+ string_of_digits (match frac with [] => [0%nat] | _ => frac end).

(** Items on their own lines, one indentation step deeper than the
    brackets, separated by a comma; keys and values separated by [": "]. *)
Fixpoint json_dumps_at (indent level : nat) (v : pyval) : string :=
  let nl := fun l => String newline (spaces (indent * l)) in
  match v with
  | VStr s => json_string s
  | VFloat x => float_repr x
  | VList [] => "[]"
  | VList (x :: xs) =>
      "[" +:+ nl (S level) +:+ json_dumps_at indent (S level) x
      +:+ (fix items (l : list pyval) : string :=
             match l with
             | [] => EmptyString
             | y :: r =>
                 "," +:+ nl (S level) +:+ json_dumps_at indent (S level) y +:+ items r
             end) xs
      +:+ nl level +:+ "]"
  | VDict [] => "{}"
  | VDict ((k, x) :: kvs) =>
      "{" +:+ nl (S level) +:+ json_string k +:+ ": "
      +:+ json_dumps_at indent (S level) x
      +:+ (fix members (l : list (string * pyval)) : string :=
             match l with
             | [] => EmptyString
             | (k', y) :: r =>
                 "," +:+ nl (S level) +:+ json_string k' +:+ ": "
                 +:+ json_dumps_at indent (S level) y +:+ members r
             end) kvs
      +:+ nl level +:+ "}"
  end.

Definition json_dumps (indent : nat) (v : pyval) : string :=
  json_dumps_at indent 0 v.

(** *** Reading JSON text back

    What a JSON reader (the serving container, [json.loads]) makes of a
    text: objects, arrays, strings with the escapes above and numbers in
    positional notation. *)

Definition is_ws (c : ascii) : bool :=
  let n := nat_of_ascii c in
  Nat.eqb n 32 || Nat.eqb n 10 || Nat.eqb n 13 || Nat.eqb n 9.

Fixpoint skip_ws (s : string) : string :=
  match s with
  | String c r => if is_ws c then skip_ws r else s
  | EmptyString => s
  end.

Definition hex_value (c : ascii) : option nat :=
  let n := nat_of_ascii c in
  if Nat.leb 48 n && Nat.leb n 57 then Some (n - 48)
  else if Nat.leb 97 n && Nat.leb n 102 then Some (n - 87)
  else if Nat.leb 65 n && Nat.leb n 70 then Some (n - 55)
  else None.

(** The characters of a string literal after its opening quote. *)
Fixpoint parse_string_body (s : string) : option (string * string) :=
  match s with
  | EmptyString => None
  | String c r =>
      if Ascii.eqb c dquote then Some (EmptyString, r)
      else if Ascii.eqb c backslash then
        match r with
        | String "u" (String "0" (String "0" (String h (String l r')))) =>
            match hex_value h, hex_value l, parse_string_body r' with
            | Some hv, Some lv, Some (x, rest) =>
                Some (String (ascii_of_nat (16 * hv + lv)) x, rest)
            | _, _, _ => None
            end
        | String e r' =>
            let decoded :=
              if Ascii.eqb e "n" then Some newline
              else if Ascii.eqb e "r" then Some (ascii_of_nat 13)
              else if Ascii.eqb e "t" then Some (ascii_of_nat 9)
              else if Ascii.eqb e "b" then Some (ascii_of_nat 8)
              else if Ascii.eqb e "f" then Some (ascii_of_nat 12)
              else if Ascii.eqb e dquote || Ascii.eqb e backslash || Ascii.eqb e "/"
                   then Some e
              else None in
            match decoded, parse_string_body r' with
            | Some d, Some (x, rest) => Some (String d x, rest)
            | _, _ => None
            end
        | EmptyString => None
        end
      else
        match parse_string_body r with
        | Some (x, rest) => Some (String c x, rest)
        | None => None
        end
  end.

Definition digit_value (c : ascii) : option Z :=
  let n := nat_of_ascii c in
  if Nat.leb 48 n && Nat.leb n 57 then Some (Z.of_nat (n - 48)) else None.

(** Leading digits of [s]: their value continued from [acc], how many. *)
Fixpoint parse_digits (s : string) (acc : Z) (count : nat) : Z * nat * string :=
  match s with
  | String c r =>
      match digit_value c with
      | Some d => parse_digits r (acc * 10 + d) (S count)
      | None => (acc, count, s)
      end
  | EmptyString => (acc, count, s)
  end.

Fixpoint pow10 (k : nat) : positive :=
  match k with
  | O => 1%positive
  | S k' => (10 * pow10 k')%positive
  end.

Definition parse_number (s : string) : option (pyfloat * string) :=
  let '(neg, s1) :=
    match s with
    | String "-" r => (true, r)
    | _ => (false, s)
    end in
  let '(ip, n, s2) := parse_digits s1 0 0 in
  match n with
  | O => None
  | S _ =>
      let '(coef, scale, s3) :=
        match s2 with
        | String "." r =>
            let '(c, k, r') := parse_digits r ip 0 in (c, k, r')
        | _ => (ip, 0%nat, s2)
        end in
      Some (Qmake (if neg then - coef else coef) (pow10 scale), s3)
  end.

(** Recursive descent; [fuel] bounds the nesting and the number of items. *)
Fixpoint parse_value (fuel : nat) (s : string) : option (pyval * string) :=
  match fuel with
  | O => None
  | S fuel' =>
      match skip_ws s with
      | String "[" r =>
          match skip_ws r with
          | String "]" r' => Some (VList [], r')
          | _ =>
              match parse_elems fuel' r with
              | Some (l, r') => Some (VList l, r')
              | None => None
              end
          end
      | String "{" r =>
          match skip_ws r with
          | String "}" r' => Some (VDict [], r')
          | _ =>
              match parse_members fuel' r with
              | Some (kvs, r') => Some (VDict kvs, r')
              | None => None
              end
          end
      | String c r as s' =>
          if Ascii.eqb c dquote then
            match parse_string_body r with
            | Some (x, r') => Some (VStr x, r')
            | None => None
            end
          else
            match parse_number s' with
            | Some (x, r') => Some (VFloat x, r')
            | None => None
            end
      | EmptyString => None
      end
  end
with parse_elems (fuel : nat) (s : string) : option (list pyval * string) :=
  match fuel with
  | O => None
  | S fuel' =>
      match parse_value fuel' s with
      | Some (v, r) =>
          match skip_ws r with
          | String "," r' =>
              match parse_elems fuel' r' with
              | Some (l, r'') => Some (v :: l, r'')
              | None => None
              end
          | String "]" r' => Some ([v], r')
          | _ => None
          end
      | None => None
      end
  end
with parse_members (fuel : nat) (s : string)
  : option (list (string * pyval) * string) :=
  match fuel with
  | O => None
  | S fuel' =>
      match skip_ws s with
      | String c r =>
          if Ascii.eqb c dquote then
            match parse_string_body r with
            | Some (k, r1) =>
                match skip_ws r1 with
                | String ":" r2 =>
                    match parse_value fuel' r2 with
                    | Some (v, r3) =>
                        match skip_ws r3 with
                        | String "," r4 =>
                            match parse_members fuel' r4 with
                            | Some (kvs, r5) => Some ((k, v) :: kvs, r5)
                            | None => None
                            end
                        | String "}" r4 => Some ([(k, v)], r4)
                        | _ => None
                        end
                    | None => None
                    end
                | _ => None
                end
            | None => None
            end
          else None
      | EmptyString => None
      end
  end.

(** A whole text: one value, then only white space. *)
Definition json_loads (s : string) : option pyval :=
  match parse_value (2 * String.length s + 2) s with
  | Some (v, r) =>
      match skip_ws r with
      | EmptyString => Some v
      | _ => None
      end
  | None => None
  end.

(** ** The notebook

    Code cells are numbered as in the notebook file (markdown cells
    included in the count).  A name a cell binds and a later cell reads
    is a result of the earlier cell and an argument of the later one. *)

Fixpoint imports (modules : list string) : prog unit :=
  match modules with
  | [] => Ret tt
  | m :: rest => Call (Import m) ;; imports rest
  end.

(** [with <enter> as h: <body>]. *)
Definition With {A : Type} (enter : op) (ext : ret enter -> op)
    (body : ret enter -> prog A) : prog A :=
  h <- Call enter ;; WithExit (body h) (ext h).

(** *** First segment: the Sparkmagic (PySpark) kernel on the EMR cluster *)
Module Emr.

Definition cell7 : prog unit := Call (Magic "info").

Definition cell9 : prog unit :=
  imports [ "__future__"; "os"; "shutil"; "boto3"; "pyspark";
            "pyspark.sql"; "pyspark.ml"; "pyspark.ml.regression";
            "pyspark.sql.types"; "pyspark.ml.feature";
            "pyspark.ml.evaluation"; "pyspark.sql.functions";
            "mleap.pyspark.spark_support" ].

(* cell 14 *)
Definition schema : StructType :=
  [ mkStructField "sex" StringType true;
    mkStructField "length" DoubleType true;
    mkStructField "diameter" DoubleType true;
    mkStructField "height" DoubleType true;
    mkStructField "whole_weight" DoubleType true;
    mkStructField "shucked_weight" DoubleType true;
    mkStructField "viscera_weight" DoubleType true;
    mkStructField "shell_weight" DoubleType true;
    mkStructField "rings" DoubleType true ].

Definition cell16 : prog (DataFrame * DataFrame) :=
  total_df <- Call (ReadCsv "s3://<your-input-bucket>/abalone/abalone.csv"
                      false schema) ;;
  Call (DfShow total_df 5) ;;
  Bind (Call (RandomSplit total_df [0.8%Q; 0.2%Q] None))
    (fun '(train_df, validation_df) => Ret (train_df, validation_df)).

(* cell 18 *)
Definition sex_indexer : stage := StringIndexer "sex" "indexed_sex".

Definition sex_encoder : stage :=
  OneHotEncoderEstimator ["indexed_sex"] ["sex_vec"].

Definition assembler : stage :=
  VectorAssembler
    [ "sex_vec"; "length"; "diameter"; "height"; "whole_weight";
      "shucked_weight"; "viscera_weight"; "shell_weight" ]
    "features".

(* cell 20 *)
Definition rf : stage := RandomForestRegressor "rings" "features" 6 18.

Definition pipeline : Pipeline :=
  mkPipeline [sex_indexer; sex_encoder; assembler; rf].

Definition cell20 (train_df : DataFrame) : prog PipelineModel :=
  Call (Fit pipeline train_df).

Definition cell22 (model : PipelineModel) (train_df validation_df : DataFrame)
  : prog (DataFrame * DataFrame) :=
  transformed_train_df <- Call (Transform model train_df) ;;
  transformed_validation_df <- Call (Transform model validation_df) ;;
  shown <- Call (Select transformed_validation_df ["prediction"]) ;;
  Call (DfShow shown 5) ;;
  Ret (transformed_train_df, transformed_validation_df).

(* cell 24 *)
Definition evaluator : RegressionEvaluator :=
  mkRegressionEvaluator "rings" "prediction" "rmse".

Definition cell24 (transformed_train_df transformed_validation_df : DataFrame)
  : prog unit :=
  train_rmse <- Call (Evaluate evaluator transformed_train_df) ;;
  validation_rmse <- Call (Evaluate evaluator transformed_validation_df) ;;
  Call (Print (PrFormat "Train RMSE = %g" train_rmse)) ;;
  Call (Print (PrFormat "Validation RMSE = %g" validation_rmse)).

Definition cell26 (model : PipelineModel) (transformed_validation_df : DataFrame)
  : prog unit :=
  Call (SerializeToBundle model "jar:file:/tmp/model.zip"
          transformed_validation_df).

Definition cell28 : prog unit :=
  Call (Import "zipfile") ;;
  With (ZipOpen "/tmp/model.zip") ZipExit
    (fun zf => Call (ExtractAll zf "/tmp/model")) ;;
  Call (Import "tarfile") ;;
  With (TarOpen "/tmp/model.tar.gz" "w:gz") TarExit
    (fun tar =>
       Call (TarAdd tar "/tmp/model/bundle.json" "bundle.json") ;;
       Call (TarAdd tar "/tmp/model/root" "root")).

(* cell 30 *)
Definition file_name : string :=
  os_path_join "emr/abalone/mleap" "model.tar.gz".

Definition cell30 : prog unit :=
  s3 <- Call (Boto3Resource "s3") ;;
  Call (UploadFile s3 "<your-output-bucket-name>" "/tmp/model.tar.gz" file_name).

Definition cell32 : prog unit :=
  Call (OsRemove "/tmp/model.zip") ;;
  Call (OsRemove "/tmp/model.tar.gz") ;;
  Call (Rmtree "/tmp/model").

Definition segment : prog unit :=
  cell7 ;;
  cell9 ;;
  Bind cell16 (fun '(train_df, validation_df) =>
  model <- cell20 train_df ;;
  Bind (cell22 model train_df validation_df)
    (fun '(transformed_train_df, transformed_validation_df) =>
  cell24 transformed_train_df transformed_validation_df ;;
  cell26 model transformed_validation_df ;;
  cell28 ;;
  cell30 ;;
  cell32)).

End Emr.

(** *** Second segment: the [conda_python3] kernel on the notebook host *)
Module Hosting.

(* cell 37 *)
Definition column (name type : string) : pyval :=
  VDict [("name", VStr name); ("type", VStr type)].

Definition schema : pyval :=
  VDict
    [ ("input",
       VList [ column "sex" "string";
               column "length" "double";
               column "diameter" "double";
               column "height" "double";
               column "whole_weight" "double";
               column "shucked_weight" "double";
               column "viscera_weight" "double";
               column "shell_weight" "double" ]);
      ("output", column "prediction" "double") ].

Definition schema_json : string := json_dumps 2 schema.

Definition cell37 : prog unit :=
  Call (Import "json") ;;
  Call (Print (PrStr schema_json)).

(* cell 38 *)
Definition sparkml_data : string :=
  str_format "s3://{}/{}/{}"
    ["<your-output-bucket-name>"; "emr/abalone/mleap"; "model.tar.gz"].

Definition model_name (timestamp_prefix : string) : string :=
  "sparkml-abalone-" +:+ timestamp_prefix.

Definition sparkml_model (timestamp_prefix role : string) (session : Session)
  : SparkMLModel :=
  {| model_data := sparkml_data;
     role := role;
     sagemaker_session := session;
     name := model_name timestamp_prefix;
     env := [("SAGEMAKER_SPARKML_SCHEMA", schema_json)] |}.

Definition endpoint_name (timestamp_prefix : string) : string :=
  "sparkml-abalone-ep-" +:+ timestamp_prefix.

Definition cell38 : prog (Session * string) :=
  imports ["time"; "time"] ;;
  timestamp_prefix <- Call (Strftime "%Y-%m-%d-%H-%M-%S") ;;
  imports ["boto3"; "sagemaker"; "sagemaker"; "sagemaker.sparkml.model"] ;;
  boto3_session <- Call Boto3Session ;;
  sagemaker_client <- Call (Boto3Client "sagemaker") ;;
  sagemaker_runtime_client <- Call (Boto3Client "sagemaker-runtime") ;;
  session <- Call (SagemakerSession boto3_session sagemaker_client
                     sagemaker_runtime_client) ;;
  role <- Call GetExecutionRole ;;
  Call (Deploy (sparkml_model timestamp_prefix role session) 1 "ml.c4.xlarge"
          (endpoint_name timestamp_prefix)) ;;
  @Ret (Session * string) (session, endpoint_name timestamp_prefix).

(* cell 41 *)
Definition payload41 : pyval :=
  VStr "F,0.515,0.425,0.14,0.766,0.304,0.1725,0.255".

Definition cell41 (session : Session) (endpoint_name : string) : prog unit :=
  imports ["sagemaker.predictor"; "sagemaker.serializers";
           "sagemaker.deserializers"] ;;
  let predictor := mkPredictor endpoint_name session CSVSerializer in
  r <- Call (Predict predictor payload41) ;;
  Call (Print (PrResponse r)).

(* cell 43 *)
Definition payload43 : pyval :=
  VDict
    [ ("data",
       VList [ VStr "F"; VFloat 0.515%Q; VFloat 0.425%Q; VFloat 0.14%Q;
               VFloat 0.766%Q; VFloat 0.304%Q; VFloat 0.1725%Q;
               VFloat 0.255%Q ]) ].

Definition cell43 (session : Session) (endpoint_name : string) : prog unit :=
  let predictor := mkPredictor endpoint_name session JSONSerializer in
  r <- Call (Predict predictor payload43) ;;
  Call (Print (PrResponse r)).

(* cell 45 *)
Definition payload45 : pyval :=
  VDict
    [ ("schema",
       VDict
         [ ("input",
            VList [ column "length" "double";
                    column "sex" "string";
                    column "diameter" "double";
                    column "height" "double";
                    column "whole_weight" "double";
                    column "shucked_weight" "double";
                    column "viscera_weight" "double";
                    column "shell_weight" "double" ]);
           ("output", column "prediction" "double") ]);
      ("data",
       VList [ VFloat 0.515%Q; VStr "F"; VFloat 0.425%Q; VFloat 0.14%Q;
               VFloat 0.766%Q; VFloat 0.304%Q; VFloat 0.1725%Q;
               VFloat 0.255%Q ]) ].

Definition cell45 (session : Session) (endpoint_name : string) : prog unit :=
  let predictor := mkPredictor endpoint_name session JSONSerializer in
  r <- Call (Predict predictor payload45) ;;
  Call (Print (PrResponse r)).

Definition cell47 (session : Session) (endpoint_name : string) : prog unit :=
  Call (DeleteEndpoint session endpoint_name).

Definition segment : prog unit :=
  cell37 ;;
  Bind cell38 (fun '(session, endpoint_name) =>
  cell41 session endpoint_name ;;
  cell43 session endpoint_name ;;
  cell45 session endpoint_name ;;
  cell47 session endpoint_name).

End Hosting.

(** All code cells, top to bottom, as running the whole notebook executes
    them: the first cell that raises stops the run. *)
Definition notebook : prog unit := Emr.segment ;; Hosting.segment.


(** ** Two concrete outside worlds

    [exec_fresh] answers every call and hands out a new identifier with
    every handle; its state is the next identifier.  [exec_faulty] raises
    where [fault] says so and answers as [exec_fresh] elsewhere. *)

Definition answer (o : op) (n : nat) : ret o :=
  match o as o' return ret o' with
  | Magic _ => tt
  | Import _ => tt
  | ReadCsv _ _ _ => DF n
  | DfShow _ _ => tt
  | RandomSplit _ _ _ => (DF n, DF (S n))
  | Fit _ _ => PM n
  | Transform _ _ => DF n
  | Select _ _ => DF n
  | Evaluate _ _ => 2.0%Q
  | Print _ => tt
  | SerializeToBundle _ _ _ => tt
  | ZipOpen _ => ZF n
  | ExtractAll _ _ => tt
  | ZipExit _ => tt
  | TarOpen _ _ => TF n
  | TarAdd _ _ _ => tt
  | TarExit _ => tt
  | OsRemove _ => tt
  | Rmtree _ => tt
  | Boto3Resource _ => S3R n
  | UploadFile _ _ _ _ => tt
  | Boto3Session => BSess n
  | Boto3Client _ => BCli n
  | Strftime _ => "2021-03-04-05-06-07"
  | SagemakerSession _ _ _ => Sess n
  | GetExecutionRole => "arn:aws:iam::123456789012:role/notebook"
  | Deploy _ _ _ _ => tt
  | Predict _ _ => Resp "9.5"
  | DeleteEndpoint _ _ => tt
  end.

Definition exec_fresh (o : op) (n : nat) : nat * (exn + ret o) :=
  (n + 2, inr (answer o n)).

Definition exec_faulty (fault : op -> option exn) (o : op) (n : nat)
  : nat * (exn + ret o) :=
  match fault o with
  | Some e => (n, inl e)
  | None => exec_fresh o n
  end.

(** The archive member cannot be read, and closing the archive fails too
    (a full disk does both). *)
Definition add_and_close_fail (o : op) : option exn :=
  match o with
  | TarAdd _ _ _ => Some (ExternalError "tar.add: read failed")
  | TarExit _ => Some (ExternalError "close: no space left on device")
  | _ => None
  end.

(** ** The order of effects *)

(** The calls that change something outside the notebook's process, each
    with the names that tie it to the others: the S3 location for the
    upload and the registered model, the endpoint name for the deployment,
    the requests and the deletion. *)
Inductive milestone : Type :=
| MSerialize (uri : string)
| MExtract (dest : string)
| MArchive (src arcname : string)
| MUpload (s3_uri : string)
| MDeploy (model_data : string) (endpoint_name : string)
| MPredict (endpoint_name : string)
| MDelete (endpoint_name : string).

Definition milestone_of (o : op) : option milestone :=
  match o with
  | SerializeToBundle _ uri _ => Some (MSerialize uri)
  | ExtractAll _ dest => Some (MExtract dest)
  | TarAdd _ src arcname => Some (MArchive src arcname)
  | UploadFile _ bucket _ key => Some (MUpload ("s3://" +:+ bucket +:+ "/" +:+ key))
  | Deploy m _ _ ep => Some (MDeploy (model_data m) ep)
  | Predict p _ => Some (MPredict (p_endpoint_name p))
  | DeleteEndpoint _ ep => Some (MDelete ep)
  | _ => None
  end.

Definition milestones (tr : list event) : list milestone :=
  omap milestone_of (ops tr).

Definition workflow (ep : string) : list milestone :=
  [ MSerialize "jar:file:/tmp/model.zip";
    MExtract "/tmp/model";
    MArchive "/tmp/model/bundle.json" "bundle.json";
    MArchive "/tmp/model/root" "root";
    MUpload "s3://<your-output-bucket-name>/emr/abalone/mleap/model.tar.gz";
    MDeploy "s3://<your-output-bucket-name>/emr/abalone/mleap/model.tar.gz" ep;
    MPredict ep; MPredict ep; MPredict ep;
    MDelete ep ].

Definition is_delete (o : op) : bool :=
  match o with
  | DeleteEndpoint _ _ => true
  | _ => false
  end.

(** ** Errors along a trace *)

Definition succeeded (e : event) : Prop := ev_error e = None.

(** The errors raised along a trace, oldest first. *)
Definition errors (tr : list event) : list exn := omap ev_error tr.

(** The exit call of the [with] statement around a call: [extractall]
    and [tar.add] are the two calls made inside one, on the archive the
    statement has opened. *)
Definition with_exit (o : op) : option op :=
  match o with
  | ExtractAll zf _ => Some (ZipExit zf)
  | TarAdd tar _ _ => Some (TarExit tar)
  | _ => None
  end.

(** The archive a call works on was opened by a call of [before]. *)
Definition entered (before : list event) (o : op) : Prop :=
  match o with
  | ExtractAll zf _ => exists file, In (Ev (ZipOpen file) (inr zf)) before
  | TarAdd tar _ _ => exists file mode, In (Ev (TarOpen file mode) (inr tar)) before
  | _ => True
  end.

(** A trace up to its first raising call: the calls before it, the call,
    its error, the calls after it. *)
Fixpoint first_failure (tr : list event)
  : option (list event * op * exn * list event) :=
  match tr with
  | [] => None
  | Ev o (inl e) :: rest => Some ([], o, e, rest)
  | ev :: rest =>
      match first_failure rest with
      | Some (before, o, e, after) => Some (ev :: before, o, e, after)
      | None => None
      end
  end.

(** What follows the first raising call [o] of a run that raises [e]:
    outside a [with] statement nothing, and [e] is the error of [o];
    inside one exactly the statement's exit call, and [e] is the error of
    [o] unless the exit raises, when it is the exit's. *)
Definition leaves_as (o : op) (e0 : exn) (after : list event) (e : exn) : Prop :=
  match with_exit o with
  | None => after = [] /\ e = e0
  | Some x =>
      exists r : exn + ret x,
        after = [Ev x r] /\
        e = match r with
            | inl e1 => e1
            | inr _ => e0
            end
  end.

(** How an error leaves a run: the first call that raised, and what
    follows it. *)
Definition raised_as (tr : list event) (e : exn) : Prop :=
  exists before o e0 after,
    tr = before ++ Ev o (inl e0) :: after /\
    Forall succeeded before /\
    entered before o /\
    leaves_as o e0 after e.

(** The run in which every call is answered. *)
Definition fresh_run : list event * (exn + unit) * nat :=
  run exec_fresh notebook 0.

Definition fresh_trace : list event := fst (fst fresh_run).

(** ** The local disk of the EMR master node and the object store

    What the file calls of the notebook ([zipfile], [tarfile],
    [os.remove], [shutil.rmtree], [upload_file], and MLeap writing its
    bundle) do to the files they name, after the documentation of these
    libraries.  A disk maps absolute paths, as lists of components, to
    entries; a disk lists its directories, so the parent of an entry is a
    directory entry.  An archive is a file whose content is a list of
    members, each a relative path with an entry; the order in which a
    directory's children are archived is left to the map's enumeration. *)

Abbreviation path := (list string).

Inductive format : Type := ZipFormat | TarGzFormat.

Inductive blob : Type :=
| Raw (data : string)
| Archive (fmt : format) (members : list (path * entry))
with entry : Type :=
| EDir
| EFile (content : blob).

Record local : Type := mkLocal {
  disk : gmap path entry;
  open_zips : list (list (path * entry));   (* by ZipFile handle: the members read *)
  open_tars : list path;                    (* by TarFile handle: the archive's path *)
  objects : gmap (string * string) blob     (* S3: (bucket, key) to content *)
}.

Fixpoint split_slash (s cur : string) : list string :=
  match s with
  | EmptyString => [cur]
  | String c r =>
      if Ascii.eqb c "/" then cur :: split_slash r EmptyString
      else split_slash r (cur +:+ str1 c)
  end.

Definition parse_path (s : string) : path :=
  List.filter (fun c => negb (String.eqb c EmptyString)) (split_slash s EmptyString).

Fixpoint show_path (p : path) : string :=
  match p with
  | [] => EmptyString
  | c :: r => "/" +:+ c +:+ show_path r
  end.

Fixpoint strip_prefix (pre s : string) : option string :=
  match pre, s with
  | EmptyString, _ => Some s
  | String a pre', String b s' =>
      if Ascii.eqb a b then strip_prefix pre' s' else None
  | String _ _, EmptyString => None
  end.

(** *** [ZipFile.extractall]

    The result of a call that writes to the disk: the disk it leaves, and
    the error when it stopped on one. *)
Abbreviation written := (exn * gmap path entry + gmap path entry)%type.

(** [os.makedirs]: the directories [base/c1], [base/c1/c2], ... down to
    [base/rest], kept where they exist, created where they are missing.
    A file in the way raises; the error names what was to go below the
    file: the next directory, or, past the last one, what [leaf] names. *)
Fixpoint makedirs (base rest leaf : path) (d : gmap path entry) : written :=
  match rest with
  | [] => inr d
  | c :: rest' =>
      let q := base ++ [c] in
      match d !! q with
      | Some (EFile _) =>
          inl (NotADirectoryError (show_path (q ++ take 1 (rest' ++ leaf))), d)
      | Some EDir => makedirs q rest' leaf d
      | None => makedirs q rest' leaf (<[q := EDir]> d)
      end
  end.

(** The components a member's name loses on extraction: empty ones (of
    an absolute name or a doubled slash), [.] and [..]. *)
Definition invalid_path_part (c : string) : bool :=
  String.eqb c "" || String.eqb c "." || String.eqb c "..".

Definition sanitize (name : path) : path :=
  List.filter (fun c => negb (invalid_path_part c)) name.

(** [ZipFile._extract_member]: the target is the destination joined with
    the sanitized name; its parent directories are made, then the member
    is written: a directory is created unless it is there, a file is
    created or overwritten. *)
Definition extract_member (dest : path) (m : path * entry)
    (d : gmap path entry) : written :=
  let target := dest ++ sanitize (fst m) in
  match makedirs [] (removelast target) (option_list (last target)) d with
  | inl x => inl x
  | inr d1 =>
      match snd m, d1 !! target with
      | EDir, Some EDir => inr d1
      | EDir, Some (EFile _) => inl (FileExistsError (show_path target), d1)
      | EDir, None => inr (<[target := EDir]> d1)
      | EFile _, Some EDir => inl (IsADirectoryError (show_path target), d1)
      | EFile b, _ => inr (<[target := EFile b]> d1)
      end
  end.

(** [ZipFile.extractall(dest)]: the members in archive order; when one
    raises, those before it stay extracted. *)
Fixpoint extractall (ms : list (path * entry)) (dest : path)
    (d : gmap path entry) : written :=
  match ms with
  | [] => inr d
  | m :: rest =>
      match extract_member dest m d with
      | inl x => inl x
      | inr d1 => extractall rest dest d1
      end
  end.

(** *** What a zip archive holds

    The archive read as a tree, without extracting it.  A member's place
    is its name without the components that are empty, [.] or [..]; at a
    path there is the entry of the last member of that place; failing
    that, a directory when the path leads to a member. *)
Definition member_path (name : path) : path :=
  List.filter (fun c => bool_decide (c ∉ [""; "."; ".."])) name.

Definition named (rel : path) (m : path * entry) : bool :=
  bool_decide (member_path (fst m) = rel).

Definition leads_to (rel : path) (m : path * entry) : bool :=
  bool_decide (rel `prefix_of` member_path (fst m)) && negb (named rel m).

Definition zip_entry (zs : list (path * entry)) (rel : path) : option entry :=
  match last (List.filter (named rel) zs) with
  | Some m => Some (snd m)
  | None => if existsb (leads_to rel) zs then Some EDir else None
  end.

Definition is_file (e : entry) : bool :=
  match e with
  | EFile _ => true
  | EDir => false
  end.

(** No file of the archive is in the way of another member: what a
    file's place is a prefix of is that place, and a file too. *)
Definition in_the_way (f m : path * entry) : bool :=
  is_file (snd f) &&
  bool_decide (member_path (fst f) `prefix_of` member_path (fst m)) &&
  negb (named (member_path (fst f)) m && is_file (snd m)).

Definition zip_consistent (zs : list (path * entry)) : bool :=
  forallb (fun f => forallb (fun m => negb (in_the_way f m)) zs) zs.

(** The disk [d] is the disk [d0] with the archive [zs] laid out below
    [dest], where nothing was. *)
Definition laid_out (dest : path) (d0 : gmap path entry)
    (zs : list (path * entry)) (d : gmap path entry) : Prop :=
  forall q,
    d !! q = if decide (dest `prefix_of` q)
             then zip_entry zs (drop (length dest) q)
             else d0 !! q.

(** Everything strictly below [root], by its path relative to [root];
    [skip] (the archive being written) is left out. *)
Definition below (root skip : path) (d : gmap path entry)
  : list (path * entry) :=
  omap (fun ke : path * entry =>
          if decide (root `prefix_of` fst ke /\ fst ke <> root /\ fst ke <> skip)
          then Some (drop (length root) (fst ke), snd ke)
          else None)
       (map_to_list d).

(** What [TarFile.add(src)] archives (recursively): [src] itself and, when
    it is a directory, all that is below it. *)
Definition walk (src skip : path) (d : gmap path entry)
  : option (list (path * entry)) :=
  if decide (src = skip) then Some []
  else match d !! src with
       | None => None
       | Some (EFile b) => Some [([], EFile b)]
       | Some EDir => Some (([], EDir) :: below src skip d)
       end.

Definition rebase (arc : path) (ms : list (path * entry)) : list (path * entry) :=
  List.map (fun m => (arc ++ fst m, snd m)) ms.

(** [shutil.rmtree(p)] on a directory: [p] and all below it go. *)
Definition remove_tree (p : path) (d : gmap path entry) : gmap path entry :=
  filter (fun ke : path * entry => ~ p `prefix_of` fst ke) d.

Definition set_disk (fs : local) (d : gmap path entry) : local :=
  {| disk := d; open_zips := open_zips fs; open_tars := open_tars fs;
     objects := objects fs |}.

Section DiskWorld.

(** The rest of the world (cluster, AWS) and the bundle MLeap writes for
    a fitted model are arbitrary. *)
Context {W0 : Type}.
Variable exec0 : forall o : op, W0 -> W0 * (exn + ret o).
Variable bundle_of : PipelineModel -> list (path * entry).

(** The file calls; [None] for a call that is not one.  MLeap refuses
    to write over an existing bundle file, as the notebook says where it
    introduces the clean-up cell.  [tarfile.open] creates the archive
    file; the directory it is in is taken to exist. *)
Definition local_step (o : op) (fs : local) : option (local * (exn + ret o)) :=
  match o as o' return option (local * (exn + ret o')) with
  | SerializeToBundle m uri _ =>
      Some
        match strip_prefix "jar:file:" uri with
        | None => (fs, inl (ExternalError "unsupported bundle uri"))
        | Some file =>
            match disk fs !! parse_path file with
            | Some _ => (fs, inl (FileExistsError file))
            | None =>
                (set_disk fs
                   (<[parse_path file := EFile (Archive ZipFormat (bundle_of m))]>
                      (disk fs)),
                 inr tt)
            end
        end
  | ZipOpen file =>
      Some
        match disk fs !! parse_path file with
        | None => (fs, inl (FileNotFoundError file))
        | Some EDir => (fs, inl (IsADirectoryError file))
        | Some (EFile (Archive ZipFormat ms)) =>
            ({| disk := disk fs; open_zips := open_zips fs ++ [ms];
                open_tars := open_tars fs; objects := objects fs |},
             inr (ZF (length (open_zips fs))))
        | Some (EFile _) => (fs, inl (BadZipFile file))
        end
  | ExtractAll (ZF h) dest =>
      Some
        match open_zips fs !! h with
        | None => (fs, inl (ExternalError "not an open zip file"))
        | Some ms =>
            match extractall ms (parse_path dest) (disk fs) with
            | inl (e, d) => (set_disk fs d, inl e)
            | inr d => (set_disk fs d, inr tt)
            end
        end
  | ZipExit _ => Some (fs, inr tt)
  | TarOpen file mode =>
      Some
        (if negb (String.eqb mode "w:gz")
         then (fs, inl (ExternalError "unsupported tar mode"))
         else match disk fs !! parse_path file with
              | Some EDir => (fs, inl (IsADirectoryError file))
              | _ =>
                  ({| disk := <[parse_path file := EFile (Archive TarGzFormat [])]>
                                (disk fs);
                      open_zips := open_zips fs;
                      open_tars := open_tars fs ++ [parse_path file];
                      objects := objects fs |},
                   inr (TF (length (open_tars fs))))
              end)
  | TarAdd (TF h) src arcname =>
      Some
        match open_tars fs !! h with
        | None => (fs, inl (ExternalError "not an open tar file"))
        | Some archive =>
            match disk fs !! archive with
            | Some (EFile (Archive TarGzFormat ms)) =>
                match walk (parse_path src) archive (disk fs) with
                | None => (fs, inl (FileNotFoundError src))
                | Some added =>
                    (set_disk fs
                       (<[archive :=
                            EFile (Archive TarGzFormat
                                     (ms ++ rebase (parse_path arcname) added))]>
                          (disk fs)),
                     inr tt)
                end
            | _ => (fs, inl (ExternalError "archive file is gone"))
            end
        end
  | TarExit _ => Some (fs, inr tt)
  | OsRemove file =>
      Some
        match disk fs !! parse_path file with
        | None => (fs, inl (FileNotFoundError file))
        | Some EDir => (fs, inl (IsADirectoryError file))
        | Some (EFile _) => (set_disk fs (delete (parse_path file) (disk fs)), inr tt)
        end
  | Rmtree dir =>
      Some
        match disk fs !! parse_path dir with
        | None => (fs, inl (FileNotFoundError dir))
        | Some (EFile _) => (fs, inl (NotADirectoryError dir))
        | Some EDir => (set_disk fs (remove_tree (parse_path dir) (disk fs)), inr tt)
        end
  | UploadFile _ bucket file key =>
      Some
        match disk fs !! parse_path file with
        | Some (EFile b) =>
            ({| disk := disk fs; open_zips := open_zips fs;
                open_tars := open_tars fs;
                objects := <[(bucket, key) := b]> (objects fs) |},
             inr tt)
        | Some EDir => (fs, inl (IsADirectoryError file))
        | None => (fs, inl (FileNotFoundError file))
        end
  | _ => None
  end.

Definition disk_exec (o : op) (w : W0 * local) : (W0 * local) * (exn + ret o) :=
  match local_step o (snd w) with
  | Some (fs', r) => ((fst w, fs'), r)
  | None => let '(w0', r) := exec0 o (fst w) in ((w0', snd w), r)
  end.

End DiskWorld.

(** Paths of the three local artifacts. *)
Definition model_zip : path := ["tmp"; "model.zip"].
Definition model_tar_gz : path := ["tmp"; "model.tar.gz"].
Definition model_dir : path := ["tmp"; "model"].

(** The entries of the tree rooted at [root]: the root, and below it
    when the root is a directory. *)
Definition in_tree (d : gmap path entry) (root rel : path) (e : entry) : Prop :=
  d !! (root ++ rel) = Some e /\ (rel = [] \/ d !! root = Some EDir).

(** A small bundle and the disk states of a run over it: before the
    bundle is written, after it is written (cell 26), and after it is
    repackaged and uploaded (cells 28 and 30). *)
Definition sample_bundle : list (path * entry) :=
  [ (["bundle.json"], EFile (Raw "{}"));
    (["root"], EDir);
    (["root"; "model.json"], EFile (Raw "forest"));
    (["root"; "features"; "node.json"], EFile (Raw "assembler")) ].

Definition sample_disk : local :=
  {| disk := {[ ["tmp"] := EDir ]};
     open_zips := []; open_tars := []; objects := ∅ |}.

Definition sample_exec (o : op) (w : nat * local)
  : (nat * local) * (exn + ret o) :=
  disk_exec exec_fresh (fun _ => sample_bundle) o w.

Definition sample_serialized : local :=
  snd (snd (run sample_exec (Emr.cell26 (PM 0) (DF 1)) (0, sample_disk))).

Definition sample_extracted : gmap path entry :=
  match extractall sample_bundle model_dir (disk sample_serialized) with
  | inr d => d
  | inl _ => ∅
  end.

(** The disk after cell 26 on a host where an earlier extraction has left
    a file below [/tmp/model/root]. *)
Definition sample_stale : local :=
  set_disk sample_serialized
    (<[model_dir ++ ["root"; "stale.json"] := EFile (Raw "old")]>
       (<[model_dir ++ ["root"] := EDir]>
          (<[model_dir := EDir]> (disk sample_serialized)))).

Definition sample_uploaded : local :=
  snd (snd (run sample_exec (Emr.cell28 ;; Emr.cell30) (0, sample_serialized))).

(** ** Reading a payload schema *)

(** The [(name, type)] of a column description. *)
Definition column_spec (v : pyval) : option (string * string) :=
  match dict_get "name" v, dict_get "type" v with
  | Some (VStr n), Some (VStr t) => Some (n, t)
  | _, _ => None
  end.

Definition input_columns (schema : pyval) : option (list (string * string)) :=
  match dict_get "input" schema with
  | Some (VList cols) => mapM column_spec cols
  | _ => None
  end.

Definition output_column (schema : pyval) : option (string * string) :=
  match dict_get "output" schema with
  | Some c => column_spec c
  | None => None
  end.

(** The record a data list denotes under a schema: the i-th value under
    the name of the i-th input column. *)
Definition interpret (schema data : pyval) : option (gmap string pyval) :=
  match input_columns schema, data with
  | Some cols, VList vals =>
      if Nat.eqb (length cols) (length vals)
      then Some (list_to_map (zip (List.map fst cols) vals))
      else None
  | _, _ => None
  end.

(** Exchange the first two items. *)
Definition swap01 {A : Type} (l : list A) : list A :=
  match l with
  | a :: b :: rest => b :: a :: rest
  | _ => l
  end.

(** The serving container's name of a Spark data type. *)
Definition type_name (t : DataType) : string :=
  match t with
  | StringType => "string"
  | DoubleType => "double"
  end.

Definition field_column (f : StructField) : pyval :=
  Hosting.column (sf_name f) (type_name (sf_dataType f)).

(** The fields of a CSV payload. *)
Fixpoint split_comma (s cur : string) : list string :=
  match s with
  | EmptyString => [cur]
  | String c r =>
      if Ascii.eqb c "," then cur :: split_comma r EmptyString
      else split_comma r (cur +:+ str1 c)
  end.

(** How many values a request carries for the model. *)
Definition payload_arity (payload : pyval) : option nat :=
  match payload with
  | VStr csv => Some (length (split_comma csv EmptyString))
  | VDict _ =>
      match dict_get "data" payload with
      | Some (VList vals) => Some (length vals)
      | _ => None
      end
  | _ => None
  end.

(** ** Columns through a pipeline *)

(** Columns a stage reads when it is fitted, reads when it transforms,
    and adds (a forest's [predictionCol] is left at its default). *)
Definition stage_fit_inputs (s : stage) : list string :=
  match s with
  | StringIndexer i _ => [i]
  | OneHotEncoderEstimator ins _ => ins
  | VectorAssembler ins _ => ins
  | RandomForestRegressor label features _ _ => [features; label]
  end.

Definition stage_transform_inputs (s : stage) : list string :=
  match s with
  | StringIndexer i _ => [i]
  | OneHotEncoderEstimator ins _ => ins
  | VectorAssembler ins _ => ins
  | RandomForestRegressor _ features _ _ => [features]
  end.

Definition stage_outputs (s : stage) : list string :=
  match s with
  | StringIndexer _ o => [o]
  | OneHotEncoderEstimator _ outs => outs
  | VectorAssembler _ o => [o]
  | RandomForestRegressor _ _ _ _ => ["prediction"]
  end.

Definition has_column (cols : list string) (c : string) : bool :=
  existsb (String.eqb c) cols.

(** Every stage finds its input columns in the incoming dataframe or
    among the outputs of the stages before it. *)
Fixpoint stages_ready (inputs_of : stage -> list string) (cols : list string)
    (ss : list stage) : bool :=
  match ss with
  | [] => true
  | s :: rest =>
      forallb (has_column cols) (inputs_of s)
      && stages_ready inputs_of (cols ++ stage_outputs s) rest
  end.

(** The columns the stages need from the incoming dataframe, in the order
    in which they are first read; [known] are the columns already
    accounted for. *)
Fixpoint required_columns (inputs_of : stage -> list string)
    (known : list string) (ss : list stage) : list string :=
  match ss with
  | [] => []
  | s :: rest =>
      let missing :=
        List.filter (fun c => negb (has_column known c)) (inputs_of s) in
      missing
      ++ required_columns inputs_of (known ++ missing ++ stage_outputs s) rest
  end.

(** ** Projections of a trace *)

Definition is_ml (o : op) : bool :=
  match o with
  | RandomSplit _ _ _ | Fit _ _ | Transform _ _ | Evaluate _ _ => true
  | _ => false
  end.

(** The split, fit, transform and evaluate calls of a trace, with their
    results. *)
Definition ml_events (tr : list event) : list event :=
  List.filter (fun e => is_ml (ev_op e)) tr.

Definition fit_call (o : op) : option (Pipeline * DataFrame) :=
  match o with
  | Fit p df => Some (p, df)
  | _ => None
  end.

(** The pipelines a trace fits, each with the dataframe it is fitted on. *)
Definition fit_calls (tr : list event) : list (Pipeline * DataFrame) :=
  omap fit_call (ops tr).

Definition deployed_env (o : op) : option (list (string * string)) :=
  match o with
  | Deploy m _ _ _ => Some (env m)
  | _ => None
  end.

(** The container environments of the models a trace deploys. *)
Definition deployed_envs (tr : list event) : list (list (string * string)) :=
  omap deployed_env (ops tr).

Definition request_of (o : op) : option (serializer * pyval) :=
  match o with
  | Predict p payload => Some (p_serializer p, payload)
  | _ => None
  end.

(** The prediction requests of a trace: serializer and payload. *)
Definition requests (tr : list event) : list (serializer * pyval) :=
  omap request_of (ops tr).

Definition ok (o : op) (v : ret o) : event := Ev o (inr v).

(** The schema in effect for a request: the one in its payload when the
    payload carries one, the environment's otherwise. *)
Definition schema_in_effect (env_schema payload : pyval) : pyval :=
  match dict_get "schema" payload with
  | Some s => s
  | None => env_schema
  end.

(** ** The trace of a complete run

    What the outside world handed back, and the calls of each segment in
    terms of it. *)

Record emr_answers : Type := mkEmrAnswers {
  total_df : DataFrame;
  train_df : DataFrame;
  validation_df : DataFrame;
  model : PipelineModel;
  transformed_train_df : DataFrame;
  transformed_validation_df : DataFrame;
  shown_df : DataFrame;
  train_rmse : pyfloat;
  validation_rmse : pyfloat;
  zf : ZipFile;
  tar : TarFile;
  s3 : S3Resource
}.

Definition emr_trace (a : emr_answers) : list event :=
  [ ok (Magic "info") tt;
    ok (Import "__future__") tt; ok (Import "os") tt; ok (Import "shutil") tt;
    ok (Import "boto3") tt; ok (Import "pyspark") tt;
    ok (Import "pyspark.sql") tt; ok (Import "pyspark.ml") tt;
    ok (Import "pyspark.ml.regression") tt; ok (Import "pyspark.sql.types") tt;
    ok (Import "pyspark.ml.feature") tt; ok (Import "pyspark.ml.evaluation") tt;
    ok (Import "pyspark.sql.functions") tt;
    ok (Import "mleap.pyspark.spark_support") tt;
    ok (ReadCsv "s3://<your-input-bucket>/abalone/abalone.csv" false Emr.schema)
       (total_df a);
    ok (DfShow (total_df a) 5) tt;
    ok (RandomSplit (total_df a) [0.8%Q; 0.2%Q] None)
       (train_df a, validation_df a);
    ok (Fit Emr.pipeline (train_df a)) (model a);
    ok (Transform (model a) (train_df a)) (transformed_train_df a);
    ok (Transform (model a) (validation_df a)) (transformed_validation_df a);
    ok (Select (transformed_validation_df a) ["prediction"]) (shown_df a);
    ok (DfShow (shown_df a) 5) tt;
    ok (Evaluate Emr.evaluator (transformed_train_df a)) (train_rmse a);
    ok (Evaluate Emr.evaluator (transformed_validation_df a)) (validation_rmse a);
    ok (Print (PrFormat "Train RMSE = %g" (train_rmse a))) tt;
    ok (Print (PrFormat "Validation RMSE = %g" (validation_rmse a))) tt;
    ok (SerializeToBundle (model a) "jar:file:/tmp/model.zip"
          (transformed_validation_df a)) tt;
    ok (Import "zipfile") tt;
    ok (ZipOpen "/tmp/model.zip") (zf a);
    ok (ExtractAll (zf a) "/tmp/model") tt;
    ok (ZipExit (zf a)) tt;
    ok (Import "tarfile") tt;
    ok (TarOpen "/tmp/model.tar.gz" "w:gz") (tar a);
    ok (TarAdd (tar a) "/tmp/model/bundle.json" "bundle.json") tt;
    ok (TarAdd (tar a) "/tmp/model/root" "root") tt;
    ok (TarExit (tar a)) tt;
    ok (Boto3Resource "s3") (s3 a);
    ok (UploadFile (s3 a) "<your-output-bucket-name>" "/tmp/model.tar.gz"
          "emr/abalone/mleap/model.tar.gz") tt;
    ok (OsRemove "/tmp/model.zip") tt;
    ok (OsRemove "/tmp/model.tar.gz") tt;
    ok (Rmtree "/tmp/model") tt ].

Record hosting_answers : Type := mkHostingAnswers {
  timestamp_prefix : string;
  boto3_session : BotoSession;
  sagemaker_client : BotoClient;
  sagemaker_runtime_client : BotoClient;
  session : Session;
  execution_role : string;
  response41 : Response;
  response43 : Response;
  response45 : Response
}.

Definition hosting_trace (a : hosting_answers) : list event :=
  let endpoint_name := Hosting.endpoint_name (timestamp_prefix a) in
  [ ok (Import "json") tt;
    ok (Print (PrStr Hosting.schema_json)) tt;
    ok (Import "time") tt; ok (Import "time") tt;
    ok (Strftime "%Y-%m-%d-%H-%M-%S") (timestamp_prefix a);
    ok (Import "boto3") tt; ok (Import "sagemaker") tt;
    ok (Import "sagemaker") tt; ok (Import "sagemaker.sparkml.model") tt;
    ok Boto3Session (boto3_session a);
    ok (Boto3Client "sagemaker") (sagemaker_client a);
    ok (Boto3Client "sagemaker-runtime") (sagemaker_runtime_client a);
    ok (SagemakerSession (boto3_session a) (sagemaker_client a)
          (sagemaker_runtime_client a)) (session a);
    ok GetExecutionRole (execution_role a);
    ok (Deploy
          (Hosting.sparkml_model (timestamp_prefix a) (execution_role a) (session a))
          1 "ml.c4.xlarge" endpoint_name) tt;
    ok (Import "sagemaker.predictor") tt; ok (Import "sagemaker.serializers") tt;
    ok (Import "sagemaker.deserializers") tt;
    ok (Predict (mkPredictor endpoint_name (session a) CSVSerializer)
          Hosting.payload41) (response41 a);
    ok (Print (PrResponse (response41 a))) tt;
    ok (Predict (mkPredictor endpoint_name (session a) JSONSerializer)
          Hosting.payload43) (response43 a);
    ok (Print (PrResponse (response43 a))) tt;
    ok (Predict (mkPredictor endpoint_name (session a) JSONSerializer)
          Hosting.payload45) (response45 a);
    ok (Print (PrResponse (response45 a))) tt;
    ok (DeleteEndpoint (session a) endpoint_name) tt ].

(** ** More projections of a trace *)

(** Archives opened by [zipfile.ZipFile(...)] and [tarfile.open(...)]. *)
Inductive archive_handle : Type :=
| ZipHandle (zf : ZipFile)
| TarHandle (tar : TarFile).

(** The handle a call returned, when it opened an archive. *)
Definition opened_by (ev : event) : option archive_handle :=
  match ev with
  | Ev o r =>
      match o as o' return exn + ret o' -> option archive_handle with
      | ZipOpen _ =>
          fun r => match r with
                   | inr zf => Some (ZipHandle zf)
                   | inl _ => None
                   end
      | TarOpen _ _ =>
          fun r => match r with
                   | inr tar => Some (TarHandle tar)
                   | inl _ => None
                   end
      | _ => fun _ => None
      end r
  end.

(** The exit call of an archive: what leaving its [with] statement calls. *)
Definition exit_call (h : archive_handle) : op :=
  match h with
  | ZipHandle zf => ZipExit zf
  | TarHandle tar => TarExit tar
  end.

(** The archive whose exit a call is. *)
Definition exited_by (o : op) : option archive_handle :=
  match o with
  | ZipExit zf => Some (ZipHandle zf)
  | TarExit tar => Some (TarHandle tar)
  | _ => None
  end.

Definition has_succeeded (ev : event) : bool :=
  match ev_error ev with
  | None => true
  | Some _ => false
  end.

(** The archive a call has closed: its exit was called and returned.  An
    exit that raises leaves the archive open. *)
Definition closed_by (ev : event) : option archive_handle :=
  if has_succeeded ev then exited_by (ev_op ev) else None.

Definition opened (tr : list event) : list archive_handle := omap opened_by tr.

(** The archives whose exit a trace has called, whatever the call
    returned. *)
Definition exited (tr : list event) : list archive_handle :=
  omap exited_by (ops tr).

Definition closed (tr : list event) : list archive_handle := omap closed_by tr.

Definition is_removal (o : op) : bool :=
  match o with
  | OsRemove _ | Rmtree _ => true
  | _ => false
  end.

Definition is_upload (o : op) : bool :=
  match o with
  | UploadFile _ _ _ _ => true
  | _ => false
  end.

(** No local file is removed before an upload has succeeded; [uploaded]
    says whether one has when the trace starts. *)
Fixpoint removals_follow_upload (uploaded : bool) (tr : list event) : bool :=
  match tr with
  | [] => true
  | ev :: rest =>
      if is_removal (ev_op ev) then uploaded && removals_follow_upload uploaded rest
      else if is_upload (ev_op ev)
           then removals_follow_upload (uploaded || has_succeeded ev) rest
           else removals_follow_upload uploaded rest
  end.

Definition bundle_call (o : op) : option (PipelineModel * string * DataFrame) :=
  match o with
  | SerializeToBundle m uri df => Some (m, uri, df)
  | _ => None
  end.

(** The bundles a trace serializes: model, destination, sample dataframe. *)
Definition bundle_calls (tr : list event)
  : list (PipelineModel * string * DataFrame) :=
  omap bundle_call (ops tr).

(** A payload goes with a serializer: text with CSV, a dict with JSON. *)
Definition serializer_fits (rq : serializer * pyval) : bool :=
  match rq with
  | (CSVSerializer, VStr _) => true
  | (JSONSerializer, VDict _) => true
  | _ => false
  end.

(** A value has the type a schema column asks for. *)
Definition value_has_type (column : string * string) (v : pyval) : bool :=
  match v with
  | VStr _ => String.eqb (snd column) "string"
  | VFloat _ => String.eqb (snd column) "double"
  | _ => false
  end.

Fixpoint all_typed (cols : list (string * string)) (vals : list pyval) : bool :=
  match cols, vals with
  | [], [] => true
  | c :: cols', v :: vals' => value_has_type c v && all_typed cols' vals'
  | _, _ => false
  end.

(** The data of a JSON request has one value of the right type for every
    input column of the schema in effect. *)
Definition data_fits_schema (env_schema payload : pyval) : bool :=
  match input_columns (schema_in_effect env_schema payload),
        dict_get "data" payload with
  | Some cols, Some (VList vals) => all_typed cols vals
  | _, _ => false
  end.

#[global] Instance stage_eq_dec : EqDecision stage.
Proof. solve_decision. Defined.

(** A bundle without [root], and a disk on which it has been written. *)
Definition sample_manifest_only : list (path * entry) :=
  [ (["bundle.json"], EFile (Raw "{}")) ].

Definition sample_truncated : local :=
  {| disk := <[model_zip := EFile (Archive ZipFormat sample_manifest_only)]>
               {[ ["tmp"] := EDir ]};
     open_zips := []; open_tars := []; objects := ∅ |}.

Definition sample_truncated_extracted : gmap path entry :=
  match extractall sample_manifest_only model_dir (disk sample_truncated) with
  | inr d => d
  | inl _ => ∅
  end.

(** What the notebook's own output calls put out: a table of the first
    rows of a dataframe ([show]) or a printed value ([print]). *)
Inductive output : Type :=
| OutTable (df : DataFrame) (rows : nat)
| OutPrint (p : printable).

Definition displayed_by (ev : event) : option output :=
  match ev_op ev with
  | DfShow df n => if has_succeeded ev then Some (OutTable df n) else None
  | Print p => if has_succeeded ev then Some (OutPrint p) else None
  | _ => None
  end.

(** The output of the [show] and [print] calls of a trace, in order. *)
Definition displayed (tr : list event) : list output := omap displayed_by tr.

(** The predictions a trace has received: serializer, payload, response. *)
Definition prediction_of (ev : event) : option (serializer * pyval * Response) :=
  match ev with
  | Ev o r =>
      match o as o' return exn + ret o' -> option (serializer * pyval * Response) with
      | Predict p payload =>
          fun r => match r with
                   | inr response => Some (p_serializer p, payload, response)
                   | inl _ => None
                   end
      | _ => fun _ => None
      end r
  end.

Definition predictions (tr : list event) : list (serializer * pyval * Response) :=
  omap prediction_of tr.

(** Every event satisfying [q] has an event satisfying [p] before it;
    [seen] says whether one came before the trace starts. *)
Fixpoint preceded_by (p q : event -> bool) (seen : bool) (tr : list event) : bool :=
  match tr with
  | [] => true
  | ev :: rest => (negb (q ev) || seen) && preceded_by p q (seen || p ev) rest
  end.

Definition is_extract (o : op) : bool :=
  match o with
  | ExtractAll _ _ => true
  | _ => false
  end.

Definition is_zip_exit (o : op) : bool :=
  match o with
  | ZipExit _ => true
  | _ => false
  end.

Definition is_add (arcname : string) (o : op) : bool :=
  match o with
  | TarAdd _ _ a => String.eqb a arcname
  | _ => false
  end.

Definition is_tar_exit (o : op) : bool :=
  match o with
  | TarExit _ => true
  | _ => false
  end.

(** The calls that make the archive, from the extraction to its close. *)
Definition packaging_steps : list (op -> bool) :=
  [ is_extract; is_zip_exit; is_add "bundle.json"; is_add "root"; is_tar_exit ].

Definition upload_is_guarded (tr : list event) : bool :=
  forallb
    (fun step =>
       preceded_by (fun e => step (ev_op e) && has_succeeded e)
         (fun e => is_upload (ev_op e)) false tr)
    packaging_steps.

(** A world in which deleting the endpoint raises, and the run in it. *)
Definition delete_fails (o : op) : option exn :=
  match o with
  | DeleteEndpoint _ _ => Some (ExternalError "ClientError")
  | _ => None
  end.

Definition undeleted_run : list event * (exn + unit) * nat :=
  run (exec_faulty delete_fails) notebook 0.
(** * Properties of [run] that hold for every program *)

Lemma errors_app (tr1 tr2 : list event) :
  errors (tr1 ++ tr2) = errors tr1 ++ errors tr2.
Proof. unfold errors. apply omap_app. Qed.

Lemma errors_nil_succeeded (tr : list event) :
  errors tr = [] <-> Forall succeeded tr.
Proof.
  unfold errors, succeeded. induction tr as [|ev tr IH]; simpl.
  - split; auto.
  - destruct (ev_error ev) eqn:E; split; intros H.
    + discriminate.
    + inversion H; subst. congruence.
    + constructor; [assumption | now apply IH].
    + inversion H; subst. now apply IH.
Qed.

Section RunFacts.

Context {W : Type}.
Variable exec : forall o : op, W -> W * (exn + ret o).

Lemma run_Bind {A B : Type} (p : prog A) (k : A -> prog B) (w : W) :
  run exec (Bind p k) w =
  let '(tr, r, w') := run exec p w in
  match r with
  | inl e => (tr, inl e, w')
  | inr a => let '(tr', r', w'') := run exec (k a) w' in (tr ++ tr', r', w'')
  end.
Proof. reflexivity. Qed.

(** A sequence that returns: its first part returned, and the rest ran
    from where the first part left the world. *)
Lemma run_Bind_returns {A B : Type} (p : prog A) (k : A -> prog B)
    (w : W) (tr : list event) (b : B) (w' : W) :
  run exec (Bind p k) w = (tr, inr b, w') ->
  exists tr1 a w1 tr2,
    run exec p w = (tr1, inr a, w1) /\
    run exec (k a) w1 = (tr2, inr b, w') /\
    tr = tr1 ++ tr2.
Proof.
  rewrite run_Bind.
  destruct (run exec p w) as [[tr1 r1] w1].
  destruct r1 as [e | a]; [discriminate |].
  destruct (run exec (k a) w1) as [[tr2 r2] w2] eqn:E2.
  intros H. inversion H; subst. exists tr1, a, w1, tr2. auto.
Qed.

(** A run that returns has seen no call raise. *)
Lemma run_returns_clean {A : Type} (p : prog A) :
  forall w tr a w', run exec p w = (tr, inr a, w') -> errors tr = [].
Proof.
  induction p as [A a0 | o | A B p IHp k IHk | A body IHb ext];
    intros w tr a w' H; simpl in H.
  - now inversion H.
  - destruct (exec o w) as [w1 r]. inversion H; subst. reflexivity.
  - destruct (run exec p w) as [[tr1 r1] w1] eqn:E1.
    destruct r1 as [e | a1]; [discriminate |].
    destruct (run exec (k a1) w1) as [[tr2 r2] w2] eqn:E2.
    inversion H; subst.
    rewrite errors_app, (IHp _ _ _ _ E1), (IHk _ _ _ _ _ E2). reflexivity.
  - destruct (run exec body w) as [[tr1 r1] w1] eqn:E1.
    destruct (exec ext w1) as [w2 [e | u]]; [discriminate |].
    inversion H; subst.
    rewrite errors_app, (IHb _ _ _ _ E1). reflexivity.
Qed.

(** A run that raises hands on the error of the latest call that
    raised: no error is made up and none is replaced by anything but a
    later error of the outside world. *)
Lemma run_raises_latest {A : Type} (p : prog A) :
  forall w tr e w', run exec p w = (tr, inl e, w') -> last (errors tr) = Some e.
Proof.
  induction p as [A a0 | o | A B p IHp k IHk | A body IHb ext];
    intros w tr e w' H; simpl in H.
  - discriminate.
  - destruct (exec o w) as [w1 r]. inversion H; subst. reflexivity.
  - destruct (run exec p w) as [[tr1 r1] w1] eqn:E1.
    destruct r1 as [e1 | a1].
    + inversion H; subst. eauto.
    + destruct (run exec (k a1) w1) as [[tr2 r2] w2] eqn:E2.
      inversion H; subst.
      rewrite errors_app, (run_returns_clean _ _ _ _ _ E1). simpl. eauto.
  - destruct (run exec body w) as [[tr1 r1] w1] eqn:E1.
    destruct (exec ext w1) as [w2 [e2 | u]].
    + inversion H; subst. rewrite errors_app. simpl. apply last_snoc.
    + inversion H; subst. rewrite errors_app. simpl.
      rewrite app_nil_r. eauto.
Qed.

(** Against a world in which no call raises, every program returns. *)
Lemma run_total {A : Type} (p : prog A) :
  (forall o w, exists v, snd (exec o w) = inr v) ->
  forall w, exists tr a w', run exec p w = (tr, inr a, w').
Proof.
  intros Hok.
  induction p as [A a0 | o | A B p IHp k IHk | A body IHb ext]; intros w; simpl.
  - eauto.
  - destruct (Hok o w) as [v Hv]. destruct (exec o w) as [w1 r]. simpl in Hv.
    subst. eauto.
  - destruct (IHp w) as (tr1 & a1 & w1 & E1). rewrite E1.
    destruct (IHk a1 w1) as (tr2 & a2 & w2 & E2). rewrite E2. eauto.
  - destruct (IHb w) as (tr1 & a1 & w1 & E1). rewrite E1.
    destruct (Hok ext w1) as [v Hv]. destruct (exec ext w1) as [w2 r].
    simpl in Hv. subst. eauto.
Qed.

End RunFacts.


(** * Symbolic execution of the notebook *)

Ltac unfold_cells :=
  unfold notebook, Emr.segment, Hosting.segment,
    Emr.cell7, Emr.cell9, Emr.cell16, Emr.cell20, Emr.cell22, Emr.cell24,
    Emr.cell26, Emr.cell28, Emr.cell30, Emr.cell32,
    Hosting.cell37, Hosting.cell38, Hosting.cell41, Hosting.cell43,
    Hosting.cell45, Hosting.cell47, With.

Ltac run_step := lazy beta iota zeta delta [run imports app].

(** Name the string literals of the goal, so that the terms the case
    analysis copies stay small. *)
Ltac name_strings :=
  repeat match goal with
  | |- context [String ?a ?r] =>
      let x := fresh "str" in set (x := String a r)
  end.

(** Case analysis on the answer of every call of the run in the goal, in
    program order; leaves one goal per place where the run can stop. *)
Ltac run_cases exec :=
  unfold_cells; run_step; name_strings;
  repeat match goal with
  | |- context [exec ?o ?w] => destruct (exec o w) as [? [?|?]]; run_step
  | |- context [match ?r with pair _ _ => _ end] =>
      is_var r; destruct r; run_step
  end.

(** Results of type [unit] are [tt]. *)
Ltac units :=
  repeat match goal with
  | r : ?T |- _ =>
      let T' := eval lazy in T in
      lazymatch T' with unit => destruct r end
  end.

(** From [run exec p w = (tr, res, w')] as a premise to a goal about
    [run exec p w] itself. *)
Lemma by_run_result {W A : Type} (x : list event * (exn + A) * W)
    (P : list event -> exn + A -> W -> Prop) :
  (let '(tr, res, w') := x in P tr res w') ->
  forall tr res w', x = (tr, res, w') -> P tr res w'.
Proof. intros H tr res w' ->. exact H. Qed.

Section CompleteRuns.

Context {W : Type}.
Variable exec : forall o : op, W -> W * (exn + ret o).

Lemma emr_complete (w : W) (tr : list event) (w' : W) :
  run exec Emr.segment w = (tr, inr tt, w') ->
  exists a : emr_answers, tr = emr_trace a.
Proof.
  revert tr w'.
  cut (forall tr res w', run exec Emr.segment w = (tr, res, w') ->
                         res = inr tt -> exists a, tr = emr_trace a);
    [intros H tr w' Hr; exact (H _ _ _ Hr eq_refl) |].
  apply (by_run_result _
           (fun tr res _ => res = inr tt -> exists a, tr = emr_trace a)).
  run_cases exec; intros Hres; try discriminate Hres.
  units. eexists (mkEmrAnswers _ _ _ _ _ _ _ _ _ _ _ _). reflexivity.
Qed.

Lemma hosting_complete (w : W) (tr : list event) (w' : W) :
  run exec Hosting.segment w = (tr, inr tt, w') ->
  exists a : hosting_answers, tr = hosting_trace a.
Proof.
  revert tr w'.
  cut (forall tr res w', run exec Hosting.segment w = (tr, res, w') ->
                         res = inr tt -> exists a, tr = hosting_trace a);
    [intros H tr w' Hr; exact (H _ _ _ Hr eq_refl) |].
  apply (by_run_result _
           (fun tr res _ => res = inr tt -> exists a, tr = hosting_trace a)).
  run_cases exec; intros Hres; try discriminate Hres.
  units. eexists (mkHostingAnswers _ _ _ _ _ _ _ _ _). reflexivity.
Qed.

(** A complete run of the notebook is a complete run of each segment. *)
Lemma notebook_complete (w : W) (tr : list event) (w' : W) :
  run exec notebook w = (tr, inr tt, w') ->
  exists (ea : emr_answers) (ha : hosting_answers),
    tr = emr_trace ea ++ hosting_trace ha.
Proof.
  unfold notebook. rewrite run_Bind.
  destruct (run exec Emr.segment w) as [[tr1 r1] w1] eqn:E1.
  destruct r1 as [e | []]; [discriminate |].
  destruct (run exec Hosting.segment w1) as [[tr2 r2] w2] eqn:E2.
  intros H. inversion H; subst.
  destruct (emr_complete _ _ _ E1) as [ea ->].
  destruct (hosting_complete _ _ _ E2) as [ha ->].
  eauto.
Qed.

End CompleteRuns.

(** * The order of effects *)

Ltac pick_timestamp :=
  match goal with
  | ts : ret (Strftime _) |- _ => exists ts
  | _ => exists EmptyString
  end.

(** C4. In every run of the notebook, complete or cut short by an error,
    the calls with an outside effect occur in the one order serialize,
    extract, archive, upload, deploy, predict three times, delete: what a
    run has done of them is an initial part of that sequence, with one
    endpoint name throughout (the string built from the time stamp) and
    the uploaded S3 location as the deployed model's data.  A run that
    completes has done all of them, and a call deleting the endpoint is
    never followed by another call. *)
Theorem workflow_order {W : Type} (exec : forall o : op, W -> W * (exn + ret o))
    (w : W) (tr : list event) (res : exn + unit) (w' : W) :
  run exec notebook w = (tr, res, w') ->
  exists timestamp_prefix : string,
    let ep := Hosting.endpoint_name timestamp_prefix in
    milestones tr `prefix_of` workflow ep /\
    forallb (fun o => negb (is_delete o)) (removelast (ops tr)) = true /\
    (res = inr tt ->
     milestones tr = workflow ep /\
     exists session, last (ops tr) = Some (DeleteEndpoint session ep)).
Proof.
  revert tr res w'.
  apply (by_run_result _
    (fun tr res _ =>
       exists timestamp_prefix : string,
         let ep := Hosting.endpoint_name timestamp_prefix in
         milestones tr `prefix_of` workflow ep /\
         forallb (fun o => negb (is_delete o)) (removelast (ops tr)) = true /\
         (res = inr tt ->
          milestones tr = workflow ep /\
          exists session, last (ops tr) = Some (DeleteEndpoint session ep)))).
  run_cases exec; pick_timestamp;
    (split; [eexists; reflexivity | split; [reflexivity |]]);
    intros Hres; try discriminate Hres.
  split; [reflexivity | eexists; reflexivity].
Qed.

(** The run in which every call is answered goes through the whole
    workflow. *)
Lemma workflow_order_witness :
  exists timestamp_prefix : string,
    let ep := Hosting.endpoint_name timestamp_prefix in
    milestones (fst (fst (run exec_fresh notebook 0))) `prefix_of` workflow ep /\
    forallb (fun o => negb (is_delete o))
      (removelast (ops (fst (fst (run exec_fresh notebook 0))))) = true /\
    (@inr exn unit tt = inr tt ->
     milestones (fst (fst (run exec_fresh notebook 0))) = workflow ep /\
     exists session,
       last (ops (fst (fst (run exec_fresh notebook 0))))
       = Some (DeleteEndpoint session ep)).
Proof.
  apply (workflow_order exec_fresh 0 _ (inr tt) (snd (run exec_fresh notebook 0))).
  vm_compute. reflexivity.
Defined.

(** * Errors *)

Lemma first_failure_split (tr : list event) :
  forall before o e after,
    first_failure tr = Some (before, o, e, after) ->
    tr = before ++ Ev o (inl e) :: after /\ Forall succeeded before.
Proof.
  induction tr as [|[o' [e' | v]] tr IH]; intros before o e after H; simpl in H.
  - discriminate.
  - inversion H; subst. split; [reflexivity | constructor].
  - destruct (first_failure tr) as [[[[b o1] e1] a] |]; [| discriminate].
    inversion H; subst.
    destruct (IH _ _ _ _ eq_refl) as [-> Hb].
    split; [reflexivity |]. constructor; [reflexivity | assumption].
Qed.

Lemma raised_as_from_first_failure (tr : list event) (e : exn) :
  match first_failure tr with
  | Some (before, o, e0, after) => entered before o /\ leaves_as o e0 after e
  | None => False
  end ->
  raised_as tr e.
Proof.
  destruct (first_failure tr) as [[[[b o] e0] a] |] eqn:E; [| tauto].
  intros [H1 H2]. destruct (first_failure_split _ _ _ _ _ E) as [-> Hb].
  exists b, o, e0, a. auto.
Qed.

(** C6, as the code has it.  No cell has a [try]; the two [with]
    statements of the repackaging cell are the only constructs that act on
    an exception.  In every run: if the notebook returns, no call raised;
    if it raises [e], then the calls before the first raising call all
    succeeded, and either that call is the last one of the run and [e] is
    its error, unchanged, or the call is [extractall] or [tar.add] inside
    a [with] statement, on the archive that statement opened, the one
    further call is that archive's exit, and [e] is the body's error
    unless the exit raises too, in which case it is the exit's.  Nothing
    is retried, and nothing else runs after a failure. *)
Theorem errors_reach_caller {W : Type}
    (exec : forall o : op, W -> W * (exn + ret o))
    (w : W) (tr : list event) (res : exn + unit) (w' : W) :
  run exec notebook w = (tr, res, w') ->
  match res with
  | inr _ => Forall succeeded tr
  | inl e => raised_as tr e
  end.
Proof.
  revert tr res w'.
  apply (by_run_result _
    (fun tr res _ =>
       match res with
       | inr _ => Forall succeeded tr
       | inl e => raised_as tr e
       end)).
  run_cases exec;
    first
      [ solve [repeat constructor]
      | apply raised_as_from_first_failure; cbn [first_failure];
        split;
        [ cbn [entered];
          first
            [ exact I
            | solve [eexists; repeat ((left; reflexivity) || right)]
            | solve [eexists _, _; repeat ((left; reflexivity) || right)] ]
        | unfold leaves_as; cbn [with_exit];
          first
            [ split; reflexivity
            | eexists; split; reflexivity ] ] ].
Qed.

(** With [tar.add] raising and the archive's close answering, the caller
    gets the error of [tar.add]. *)
Lemma errors_reach_caller_witness :
  raised_as
    (fst (fst (run (exec_faulty
                      (fun o => match o with
                                | TarAdd _ _ _ => Some (ExternalError "add")
                                | _ => None
                                end))
                 notebook 0)))
    (ExternalError "add").
Proof.
  apply (errors_reach_caller
           (exec_faulty (fun o => match o with
                                  | TarAdd _ _ _ => Some (ExternalError "add")
                                  | _ => None
                                  end))
           0 _ (inl (ExternalError "add"))
           (snd (run (exec_faulty (fun o => match o with
                                            | TarAdd _ _ _ => Some (ExternalError "add")
                                            | _ => None
                                            end))
                   notebook 0))).
  vm_compute. reflexivity.
Defined.

(** C6 as stated fails: when [tar.add] raises and closing the archive on
    the way out of the [with] statement raises as well, the error of
    [tar.add] is among the errors raised but the caller gets the other
    one. *)
Lemma close_error_replaces_add_error :
  let '(tr, res, _) := run (exec_faulty add_and_close_fail) notebook 0 in
  In (ExternalError "tar.add: read failed") (errors tr) /\
  res = inl (ExternalError "close: no space left on device") /\
  res <> inl (ExternalError "tar.add: read failed").
Proof.
  vm_compute. split; [left; reflexivity | split; [reflexivity | discriminate]].
Qed.

(** * What the cells compute with *)

(** C7. In a complete run one evaluator, configured with label column
    [rings], prediction column [prediction] and metric [rmse], is applied
    to two dataframes: the fitted model's transform of the training split
    and the same model's transform of the validation split. *)
Theorem rmse_on_both_splits {W : Type}
    (exec : forall o : op, W -> W * (exn + ret o))
    (w : W) (tr : list event) (w' : W) :
  run exec notebook w = (tr, inr tt, w') ->
  Emr.evaluator = mkRegressionEvaluator "rings" "prediction" "rmse" /\
  exists total train validation model transformed_train transformed_validation
         train_rmse validation_rmse,
    ml_events tr =
      [ ok (RandomSplit total [0.8%Q; 0.2%Q] None) (train, validation);
        ok (Fit Emr.pipeline train) model;
        ok (Transform model train) transformed_train;
        ok (Transform model validation) transformed_validation;
        ok (Evaluate Emr.evaluator transformed_train) train_rmse;
        ok (Evaluate Emr.evaluator transformed_validation) validation_rmse ].
Proof.
  intros Hrun. destruct (notebook_complete _ _ _ _ Hrun) as (ea & ha & ->).
  split; [reflexivity |].
  exists (total_df ea), (train_df ea), (validation_df ea), (model ea),
    (transformed_train_df ea), (transformed_validation_df ea),
    (train_rmse ea), (validation_rmse ea).
  reflexivity.
Qed.

Lemma rmse_on_both_splits_witness :
  Emr.evaluator = mkRegressionEvaluator "rings" "prediction" "rmse" /\
  exists total train validation model transformed_train transformed_validation
         train_rmse validation_rmse,
    ml_events fresh_trace =
      [ ok (RandomSplit total [0.8%Q; 0.2%Q] None) (train, validation);
        ok (Fit Emr.pipeline train) model;
        ok (Transform model train) transformed_train;
        ok (Transform model validation) transformed_validation;
        ok (Evaluate Emr.evaluator transformed_train) train_rmse;
        ok (Evaluate Emr.evaluator transformed_validation) validation_rmse ].
Proof.
  apply (rmse_on_both_splits exec_fresh 0 fresh_trace (snd fresh_run)).
  vm_compute. reflexivity.
Defined.

(** C3. The pipeline has the four stages below in this order; with the
    columns of the CSV schema coming in, every stage finds its inputs
    among them and the outputs of the stages before it; and a complete
    run fits exactly once: this pipeline, on the training split. *)
Theorem pipeline_stages_and_fit {W : Type}
    (exec : forall o : op, W -> W * (exn + ret o))
    (w : W) (tr : list event) (w' : W) :
  run exec notebook w = (tr, inr tt, w') ->
  stages Emr.pipeline =
    [ StringIndexer "sex" "indexed_sex";
      OneHotEncoderEstimator ["indexed_sex"] ["sex_vec"];
      VectorAssembler
        [ "sex_vec"; "length"; "diameter"; "height"; "whole_weight";
          "shucked_weight"; "viscera_weight"; "shell_weight" ]
        "features";
      RandomForestRegressor "rings" "features" 6 18 ] /\
  stages_ready stage_fit_inputs (List.map sf_name Emr.schema)
    (stages Emr.pipeline) = true /\
  exists total train validation model rest,
    ml_events tr =
      ok (RandomSplit total [0.8%Q; 0.2%Q] None) (train, validation)
      :: ok (Fit Emr.pipeline train) model :: rest /\
    fit_calls tr = [(Emr.pipeline, train)].
Proof.
  intros Hrun. destruct (notebook_complete _ _ _ _ Hrun) as (ea & ha & ->).
  split; [reflexivity | split; [reflexivity |]].
  exists (total_df ea), (train_df ea), (validation_df ea), (model ea),
    [ ok (Transform (model ea) (train_df ea)) (transformed_train_df ea);
      ok (Transform (model ea) (validation_df ea)) (transformed_validation_df ea);
      ok (Evaluate Emr.evaluator (transformed_train_df ea)) (train_rmse ea);
      ok (Evaluate Emr.evaluator (transformed_validation_df ea))
         (validation_rmse ea) ].
  split; reflexivity.
Qed.

Lemma pipeline_stages_and_fit_witness :
  stages Emr.pipeline =
    [ StringIndexer "sex" "indexed_sex";
      OneHotEncoderEstimator ["indexed_sex"] ["sex_vec"];
      VectorAssembler
        [ "sex_vec"; "length"; "diameter"; "height"; "whole_weight";
          "shucked_weight"; "viscera_weight"; "shell_weight" ]
        "features";
      RandomForestRegressor "rings" "features" 6 18 ] /\
  stages_ready stage_fit_inputs (List.map sf_name Emr.schema)
    (stages Emr.pipeline) = true /\
  exists total train validation model rest,
    ml_events fresh_trace =
      ok (RandomSplit total [0.8%Q; 0.2%Q] None) (train, validation)
      :: ok (Fit Emr.pipeline train) model :: rest /\
    fit_calls fresh_trace = [(Emr.pipeline, train)].
Proof.
  apply (pipeline_stages_and_fit exec_fresh 0 fresh_trace (snd fresh_run)).
  vm_compute. reflexivity.
Defined.

(** The order is forced: with the assembler ahead of the encoder the
    pipeline cannot be fitted. *)
Example assembler_needs_encoder :
  stages_ready stage_fit_inputs (List.map sf_name Emr.schema)
    [Emr.sex_indexer; Emr.assembler; Emr.sex_encoder; Emr.rf] = false.
Proof. reflexivity. Qed.

(** C2. A complete run deploys one model; its container environment is
    the single variable [SAGEMAKER_SPARKML_SCHEMA], whose text is JSON for
    an object with an [input] list of the eight columns below, in this
    order, and an [output] column [prediction] of type [double]. *)
Theorem schema_in_environment {W : Type}
    (exec : forall o : op, W -> W * (exn + ret o))
    (w : W) (tr : list event) (w' : W) :
  run exec notebook w = (tr, inr tt, w') ->
  exists text cfg,
    deployed_envs tr = [[("SAGEMAKER_SPARKML_SCHEMA", text)]] /\
    json_loads text = Some cfg /\
    input_columns cfg =
      Some [ ("sex", "string"); ("length", "double"); ("diameter", "double");
             ("height", "double"); ("whole_weight", "double");
             ("shucked_weight", "double"); ("viscera_weight", "double");
             ("shell_weight", "double") ] /\
    output_column cfg = Some ("prediction", "double") /\
    (exists i o, cfg = VDict [("input", i); ("output", o)]).
Proof.
  intros Hrun. destruct (notebook_complete _ _ _ _ Hrun) as (ea & ha & ->).
  exists Hosting.schema_json, Hosting.schema.
  split; [reflexivity |].
  split; [vm_compute; reflexivity |].
  split; [reflexivity | split; [reflexivity |]].
  eexists _, _. reflexivity.
Qed.

Lemma schema_in_environment_witness :
  exists text cfg,
    deployed_envs fresh_trace = [[("SAGEMAKER_SPARKML_SCHEMA", text)]] /\
    json_loads text = Some cfg /\
    input_columns cfg =
      Some [ ("sex", "string"); ("length", "double"); ("diameter", "double");
             ("height", "double"); ("whole_weight", "double");
             ("shucked_weight", "double"); ("viscera_weight", "double");
             ("shell_weight", "double") ] /\
    output_column cfg = Some ("prediction", "double") /\
    (exists i o, cfg = VDict [("input", i); ("output", o)]).
Proof.
  apply (schema_in_environment exec_fresh 0 fresh_trace (snd fresh_run)).
  vm_compute. reflexivity.
Defined.

(** Exchanging the first two columns of a schema together with the first
    two values of the data does not change the record, whatever the
    other columns and values are. *)
Lemma interpret_swap01 (n0 t0 n1 t1 : string) (cols : list pyval)
    (v0 v1 : pyval) (vals : list pyval) (out out' : pyval) :
  n0 <> n1 ->
  interpret
    (VDict [("input", VList (swap01 (Hosting.column n0 t0 :: Hosting.column n1 t1 :: cols)));
            ("output", out)])
    (VList (swap01 (v0 :: v1 :: vals)))
  = interpret
      (VDict [("input", VList (Hosting.column n0 t0 :: Hosting.column n1 t1 :: cols));
              ("output", out')])
      (VList (v0 :: v1 :: vals)).
Proof.
  intros Hne. unfold interpret, input_columns. simpl.
  destruct (mapM column_spec cols) as [cs |]; simpl; [| reflexivity].
  destruct (Nat.eqb (length cs) (length vals)); [| reflexivity].
  f_equal. apply insert_insert_ne. congruence.
Qed.

(** C5. A complete run sends three requests, the second and third as
    JSON.  The third carries its own schema: the environment's schema with
    the first two input columns, [sex] and [length], exchanged and the
    same output; its data is the second request's data with the first two
    values exchanged.  Read under its own schema, the third request's data
    is the same record, name by name, as the second request's data read
    under the environment's schema. *)
Theorem override_is_consistent_swap {W : Type}
    (exec : forall o : op, W -> W * (exn + ret o))
    (w : W) (tr : list event) (w' : W) :
  run exec notebook w = (tr, inr tt, w') ->
  requests tr =
    [ (CSVSerializer, Hosting.payload41);
      (JSONSerializer, Hosting.payload43);
      (JSONSerializer, Hosting.payload45) ] /\
  deployed_envs tr = [[("SAGEMAKER_SPARKML_SCHEMA", Hosting.schema_json)]] /\
  exists env_schema sex length others output override data43 data45,
    json_loads Hosting.schema_json = Some env_schema /\
    env_schema = VDict [("input", VList (sex :: length :: others)); ("output", output)] /\
    sex = Hosting.column "sex" "string" /\
    length = Hosting.column "length" "double" /\
    Hosting.payload43 = VDict [("data", VList data43)] /\
    Hosting.payload45 = VDict [("schema", override); ("data", VList data45)] /\
    override = VDict [("input", VList (swap01 (sex :: length :: others)));
                      ("output", output)] /\
    data45 = swap01 data43 /\
    interpret override (VList data45) = interpret env_schema (VList data43) /\
    is_Some (interpret env_schema (VList data43)).
Proof.
  intros Hrun. destruct (notebook_complete _ _ _ _ Hrun) as (ea & ha & ->).
  split; [reflexivity | split; [reflexivity |]].
  exists Hosting.schema. eexists _, _, _, _, _, _, _.
  split; [vm_compute; reflexivity |].
  split; [reflexivity |].
  split; [reflexivity |].
  split; [reflexivity |].
  split; [reflexivity |].
  split; [reflexivity |].
  split; [reflexivity |].
  split; [reflexivity |].
  split; [apply interpret_swap01; discriminate |].
  eexists. reflexivity.
Qed.

Lemma override_is_consistent_swap_witness :
  requests fresh_trace =
    [ (CSVSerializer, Hosting.payload41);
      (JSONSerializer, Hosting.payload43);
      (JSONSerializer, Hosting.payload45) ] /\
  deployed_envs fresh_trace
  = [[("SAGEMAKER_SPARKML_SCHEMA", Hosting.schema_json)]] /\
  exists env_schema sex length others output override data43 data45,
    json_loads Hosting.schema_json = Some env_schema /\
    env_schema = VDict [("input", VList (sex :: length :: others)); ("output", output)] /\
    sex = Hosting.column "sex" "string" /\
    length = Hosting.column "length" "double" /\
    Hosting.payload43 = VDict [("data", VList data43)] /\
    Hosting.payload45 = VDict [("schema", override); ("data", VList data45)] /\
    override = VDict [("input", VList (swap01 (sex :: length :: others)));
                      ("output", output)] /\
    data45 = swap01 data43 /\
    interpret override (VList data45) = interpret env_schema (VList data43) /\
    is_Some (interpret env_schema (VList data43)).
Proof.
  apply (override_is_consistent_swap exec_fresh 0 fresh_trace (snd fresh_run)).
  vm_compute. reflexivity.
Defined.

(** C8. The serving schema's input columns are the first eight fields of
    the CSV schema, in order, with [StringType] as [string] and
    [DoubleType] as [double]; the ninth field, [rings], is not among them.
    [rings] is the forest's label column and not an input of the
    assembler: fitting the pipeline needs all nine CSV columns, applying
    it needs exactly the eight served ones.  Every request of a complete
    run carries eight values, under a schema that has no [rings]
    column. *)
Theorem label_is_not_served {W : Type}
    (exec : forall o : op, W -> W * (exn + ret o))
    (w : W) (tr : list event) (w' : W) :
  run exec notebook w = (tr, inr tt, w') ->
  dict_get "input" Hosting.schema
  = Some (VList (List.map field_column (firstn 8 Emr.schema))) /\
  skipn 8 Emr.schema = [mkStructField "rings" DoubleType true] /\
  (exists served,
     input_columns Hosting.schema = Some served /\
     has_column (List.map fst served) "rings" = false /\
     required_columns stage_transform_inputs [] (stages Emr.pipeline)
     = List.map fst served) /\
  Emr.rf = RandomForestRegressor "rings" "features" 6 18 /\
  has_column (stage_fit_inputs Emr.assembler) "rings" = false /\
  required_columns stage_fit_inputs [] (stages Emr.pipeline)
  = List.map sf_name Emr.schema /\
  Forall
    (fun rq : serializer * pyval =>
       payload_arity (snd rq) = Some 8%nat /\
       exists cols,
         input_columns (schema_in_effect Hosting.schema (snd rq)) = Some cols /\
         length cols = 8%nat /\
         has_column (List.map fst cols) "rings" = false)
    (requests tr).
Proof.
  intros Hrun. destruct (notebook_complete _ _ _ _ Hrun) as (ea & ha & ->).
  split; [reflexivity |].
  split; [reflexivity |].
  split; [eexists; split; [reflexivity | split; reflexivity] |].
  split; [reflexivity |].
  split; [reflexivity |].
  split; [reflexivity |].
  replace (requests (emr_trace ea ++ hosting_trace ha))
    with [ (CSVSerializer, Hosting.payload41);
           (JSONSerializer, Hosting.payload43);
           (JSONSerializer, Hosting.payload45) ] by reflexivity.
  repeat (constructor;
          [split; [reflexivity
                  | eexists; split; [reflexivity | split; reflexivity]] |]).
  constructor.
Qed.

Lemma label_is_not_served_witness :
  dict_get "input" Hosting.schema
  = Some (VList (List.map field_column (firstn 8 Emr.schema))) /\
  skipn 8 Emr.schema = [mkStructField "rings" DoubleType true] /\
  (exists served,
     input_columns Hosting.schema = Some served /\
     has_column (List.map fst served) "rings" = false /\
     required_columns stage_transform_inputs [] (stages Emr.pipeline)
     = List.map fst served) /\
  Emr.rf = RandomForestRegressor "rings" "features" 6 18 /\
  has_column (stage_fit_inputs Emr.assembler) "rings" = false /\
  required_columns stage_fit_inputs [] (stages Emr.pipeline)
  = List.map sf_name Emr.schema /\
  Forall
    (fun rq : serializer * pyval =>
       payload_arity (snd rq) = Some 8%nat /\
       exists cols,
         input_columns (schema_in_effect Hosting.schema (snd rq)) = Some cols /\
         length cols = 8%nat /\
         has_column (List.map fst cols) "rings" = false)
    (requests fresh_trace).
Proof.
  apply (label_is_not_served exec_fresh 0 fresh_trace (snd fresh_run)).
  vm_compute. reflexivity.
Defined.

(** * The local disk *)

Lemma parse_model_zip : parse_path "/tmp/model.zip" = model_zip.
Proof. reflexivity. Qed.

Lemma parse_model_tar_gz : parse_path "/tmp/model.tar.gz" = model_tar_gz.
Proof. reflexivity. Qed.

Lemma parse_model_dir : parse_path "/tmp/model" = model_dir.
Proof. reflexivity. Qed.

(** ** Paths *)

Lemma removelast_prefix {A : Type} (l : list A) : removelast l `prefix_of` l.
Proof.
  induction l as [|a l IH]; [apply prefix_nil |].
  destruct l as [|b l]; [apply prefix_nil |].
  change (removelast (a :: b :: l)) with (a :: removelast (b :: l)).
  now apply prefix_cons.
Qed.

(** The prefixes of a path without its last component are the prefixes
    of the path other than the path itself. *)
Lemma prefix_removelast {A : Type} (r l : list A) :
  l <> [] ->
  r `prefix_of` removelast l <-> r `prefix_of` l /\ r <> l.
Proof.
  intros Hl. destruct (exists_last Hl) as (rl & x & ->).
  rewrite removelast_last. split.
  - intros H. split; [now apply prefix_app_r |].
    intros ->. now apply prefix_snoc_not in H.
  - intros [[k Hk] Hne].
    destruct k as [|y k] using rev_ind.
    + rewrite app_nil_r in Hk. congruence.
    + rewrite app_assoc in Hk. apply app_inj_tail in Hk as [-> _].
      now exists k.
Qed.

Lemma drop_prefix {A : Type} (p q : list A) :
  p `prefix_of` q -> q = p ++ drop (length p) q.
Proof. intros [k ->]. now rewrite drop_app_length. Qed.

(** ** Making directories *)

Lemma makedirs_preserves (rest : path) :
  forall base leaf d d' q e,
    makedirs base rest leaf d = inr d' -> d !! q = Some e -> d' !! q = Some e.
Proof.
  induction rest as [|c rest IH]; intros base leaf d d' q e H Hq; simpl in H.
  - now inversion H; subst.
  - destruct (d !! (base ++ [c])) as [[|b] |] eqn:E.
    + eauto.
    + discriminate.
    + eapply IH; [exact H |].
      rewrite lookup_insert_ne; [assumption | congruence].
Qed.

(** [makedirs] changes nothing but the missing directories on its way. *)
Lemma makedirs_frame (rest : path) :
  forall base leaf d d' q,
    makedirs base rest leaf d = inr d' ->
    (forall r, r <> [] -> r `prefix_of` rest -> q = base ++ r -> is_Some (d !! q)) ->
    d' !! q = d !! q.
Proof.
  induction rest as [|c rest IH]; intros base leaf d d' q H Hq; simpl in H.
  - now inversion H.
  - assert (Hrest : forall d0 : gmap path entry, d0 !! q = d !! q ->
              forall r, r <> [] -> r `prefix_of` rest -> q = (base ++ [c]) ++ r ->
                        is_Some (d0 !! q)).
    { intros d0 E r Hr Hp ->. rewrite E. apply (Hq (c :: r)).
      - discriminate.
      - now apply prefix_cons.
      - now rewrite <- app_assoc. }
    destruct (d !! (base ++ [c])) as [[| b] |] eqn:E.
    + apply (IH _ _ _ _ _ H). now apply Hrest.
    + discriminate.
    + destruct (decide (q = base ++ [c])) as [-> | Hne].
      * destruct (Hq [c]) as [x Hx];
          [discriminate | apply prefix_cons, prefix_nil | reflexivity |].
        congruence.
      * rewrite (IH _ _ _ _ _ H).
        -- now apply lookup_insert_ne.
        -- apply Hrest. now apply lookup_insert_ne.
Qed.

Lemma makedirs_creates (rest : path) :
  forall base leaf d d' r,
    makedirs base rest leaf d = inr d' ->
    r <> [] -> r `prefix_of` rest -> d' !! (base ++ r) = Some EDir.
Proof.
  induction rest as [|c rest IH]; intros base leaf d d' r H Hr Hp.
  - apply prefix_nil_inv in Hp. contradiction.
  - destruct r as [|c' r]; [contradiction |].
    pose proof (prefix_cons_inv_1 _ _ _ _ Hp) as ->.
    apply prefix_cons_inv_2 in Hp.
    change (base ++ c :: r) with (base ++ [c] ++ r). rewrite app_assoc.
    simpl in H.
    destruct (d !! (base ++ [c])) as [[| b] |] eqn:E; [| discriminate |].
    + destruct r as [|c2 r].
      * rewrite app_nil_r. eapply makedirs_preserves; eauto.
      * now apply (IH _ _ _ _ _ H).
    + destruct r as [|c2 r].
      * rewrite app_nil_r. eapply makedirs_preserves; eauto.
        apply lookup_insert_eq.
      * now apply (IH _ _ _ _ _ H).
Qed.

(** [makedirs] returns when no file is in its way. *)
Lemma makedirs_succeeds (rest : path) :
  forall base leaf d,
    (forall r b, r <> [] -> r `prefix_of` rest -> d !! (base ++ r) <> Some (EFile b)) ->
    exists d', makedirs base rest leaf d = inr d'.
Proof.
  induction rest as [|c rest IH]; intros base leaf d Hfree; simpl.
  - eauto.
  - assert (Hc : forall b, d !! (base ++ [c]) <> Some (EFile b)).
    { intros b. apply Hfree; [discriminate | apply prefix_cons, prefix_nil]. }
    destruct (d !! (base ++ [c])) as [[| b] |] eqn:E.
    + apply IH. intros r b Hr Hp. rewrite <- app_assoc.
      apply Hfree; [discriminate | now apply prefix_cons].
    + now destruct (Hc b).
    + apply IH. intros r b Hr Hp.
      rewrite lookup_insert_ne
        by (intros Heq; apply Hr; apply (app_inv_head (base ++ [c]));
            now rewrite app_nil_r).
      rewrite <- app_assoc.
      apply Hfree; [discriminate | now apply prefix_cons].
Qed.

(** ** Extraction *)

Lemma extract_member_lookup (dest name : path) (e : entry)
    (d d' : gmap path entry) :
  extract_member dest (name, e) d = inr d' ->
  d' !! (dest ++ sanitize name) = Some e.
Proof.
  unfold extract_member; simpl.
  destruct (makedirs _ _ _ d) as [x | d1]; [discriminate |].
  destruct e as [| b]; destruct (d1 !! (dest ++ sanitize name)) as [[|b'] |] eqn:E;
    intros H; inversion H; subst; try assumption; apply lookup_insert_eq.
Qed.

(** Extraction stays below its destination, given the directories above
    the destination exist. *)
Lemma extract_member_frame (dest : path) (m : path * entry)
    (d d' : gmap path entry) (q : path) :
  extract_member dest m d = inr d' ->
  (forall r, r <> [] -> r `prefix_of` dest -> r <> dest -> is_Some (d !! r)) ->
  ~ dest `prefix_of` q ->
  d' !! q = d !! q.
Proof.
  unfold extract_member. intros H Habove Hq.
  destruct (makedirs _ _ _ d) as [x | d1] eqn:M; [discriminate |].
  assert (E1 : d1 !! q = d !! q).
  { apply (makedirs_frame _ _ _ _ _ _ M). intros r Hr Hp Heq. simpl in Heq. subst q.
    assert (Hp' : r `prefix_of` dest ++ sanitize (fst m)).
    { etransitivity; [exact Hp | apply removelast_prefix]. }
    destruct (prefix_weak_total r dest (dest ++ sanitize (fst m)) Hp'
                (prefix_app_r _ _ _ (reflexivity _)))
      as [Hrd | Hdr]; [| contradiction].
    apply Habove; [assumption | assumption |]. intros ->. now apply Hq. }
  assert (Hne : q <> dest ++ sanitize (fst m)).
  { intros ->. apply Hq. now exists (sanitize (fst m)). }
  destruct (snd m) as [| b];
    destruct (d1 !! (dest ++ sanitize (fst m))) as [[| b'] |];
    inversion H; subst; try exact E1;
    now rewrite lookup_insert_ne by congruence.
Qed.

Lemma extractall_frame (dest : path) (ms : list (path * entry)) :
  forall d d' q,
    extractall ms dest d = inr d' ->
    (forall r, r <> [] -> r `prefix_of` dest -> r <> dest -> is_Some (d !! r)) ->
    ~ dest `prefix_of` q ->
    d' !! q = d !! q.
Proof.
  induction ms as [|m ms IH]; intros d d' q H Habove Hq; simpl in H.
  - now inversion H.
  - destruct (extract_member dest m d) as [x | d1] eqn:E; [discriminate |].
    rewrite (IH _ _ _ H); [now apply (extract_member_frame _ _ _ _ _ E) | | assumption].
    intros r Hr Hp Hne.
    rewrite (extract_member_frame _ _ _ _ _ E Habove); [now apply Habove |].
    intros Hdr. apply Hne. apply prefix_length_eq; [assumption |].
    now apply prefix_length.
Qed.

(** Extraction removes nothing, and never puts a file where a directory is. *)
Lemma extract_member_keeps (dest : path) (m : path * entry)
    (d d' : gmap path entry) (q : path) (e : entry) :
  extract_member dest m d = inr d' ->
  d !! q = Some e ->
  exists e', d' !! q = Some e' /\ (e = EDir -> e' = EDir).
Proof.
  unfold extract_member. intros H Hq.
  destruct (makedirs _ _ _ d) as [x | d1] eqn:M; [discriminate |].
  pose proof (makedirs_preserves _ _ _ _ _ _ _ M Hq) as Hq1.
  destruct (decide (q = dest ++ sanitize (fst m))) as [-> | Hne].
  - rewrite Hq1 in H.
    destruct (snd m) as [| b]; destruct e as [| b']; inversion H; subst.
    + eauto.
    + rewrite lookup_insert_eq. eexists. split; [reflexivity | discriminate].
  - destruct (snd m) as [| b];
      destruct (d1 !! (dest ++ sanitize (fst m))) as [[| b'] |];
      inversion H; subst; try (rewrite lookup_insert_ne by congruence); eauto.
Qed.

Lemma extractall_keeps (dest : path) (ms : list (path * entry)) :
  forall d d' q e,
    extractall ms dest d = inr d' ->
    d !! q = Some e ->
    exists e', d' !! q = Some e' /\ (e = EDir -> e' = EDir).
Proof.
  induction ms as [|m ms IH]; intros d d' q e H Hq; simpl in H.
  - inversion H; subst. eauto.
  - destruct (extract_member dest m d) as [x | d1] eqn:E; [discriminate |].
    destruct (extract_member_keeps _ _ _ _ _ _ E Hq) as (e1 & Hq1 & Hdir1).
    destruct (IH _ _ _ _ H Hq1) as (e2 & Hq2 & Hdir2).
    exists e2. auto.
Qed.

(** Every member is there after a successful extraction (as itself, or
    as a later member of the same name). *)
Lemma extractall_is_Some (dest : path) (ms : list (path * entry)) :
  forall d d' name e,
    extractall ms dest d = inr d' ->
    (name, e) ∈ ms ->
    is_Some (d' !! (dest ++ sanitize name)).
Proof.
  induction ms as [|m ms IH]; intros d d' name e H Hin; simpl in H.
  - inversion Hin.
  - destruct (extract_member dest m d) as [x | d1] eqn:E; [discriminate |].
    apply elem_of_cons in Hin as [<- | Hin].
    + pose proof (extract_member_lookup _ _ _ _ _ E) as Hl.
      destruct (extractall_keeps _ _ _ _ _ _ H Hl) as (e' & He' & _). eauto.
    + eauto.
Qed.

(** A successful extraction of a member with a name leaves the
    destination a directory. *)
Lemma extractall_makes_dest (dest : path) (ms : list (path * entry)) :
  forall d d' name e,
    extractall ms dest d = inr d' ->
    (name, e) ∈ ms -> sanitize name <> [] -> dest <> [] ->
    d' !! dest = Some EDir.
Proof.
  induction ms as [|m ms IH]; intros d d' name e H Hin Hname Hdest; simpl in H.
  - inversion Hin.
  - destruct (extract_member dest m d) as [x | d1] eqn:E; [discriminate |].
    apply elem_of_cons in Hin as [<- | Hin]; [| eauto].
    assert (Hd1 : d1 !! dest = Some EDir).
    { unfold extract_member in E. simpl in E.
      destruct (makedirs _ _ _ d) as [x | d0] eqn:M; [discriminate |].
      assert (H0 : d0 !! dest = Some EDir).
      { apply (makedirs_creates _ [] _ _ _ dest M); [assumption |].
        rewrite removelast_app by assumption. now apply prefix_app_r. }
      assert (Hne : dest ++ sanitize name <> dest).
      { intros Heq. apply Hname. apply (app_inv_head dest).
        now rewrite app_nil_r. }
      destruct e as [| b];
        destruct (d0 !! (dest ++ sanitize name)) as [[| b'] |];
        inversion E; subst; try exact H0;
        now rewrite lookup_insert_ne by congruence. }
    destruct (extractall_keeps _ _ _ _ _ _ H Hd1) as (e' & He' & Hdir).
    now rewrite He', Hdir.
Qed.

(** ** What a zip archive holds *)

(** A member is extracted to its place. *)
Lemma sanitize_member_path (name : path) : sanitize name = member_path name.
Proof.
  unfold sanitize, member_path. apply filter_ext. intros c.
  unfold invalid_path_part.
  destruct (String.eqb_spec c "") as [-> | H1]; [reflexivity |].
  destruct (String.eqb_spec c ".") as [-> | H2]; [reflexivity |].
  destruct (String.eqb_spec c "..") as [-> | H3]; [reflexivity |].
  simpl. symmetry. apply bool_decide_eq_true.
  rewrite !elem_of_cons, elem_of_nil. tauto.
Qed.

Lemma zip_entry_snoc (zs : list (path * entry)) (m : path * entry) (rel : path) :
  zip_entry (zs ++ [m]) rel =
  if named rel m then Some (snd m)
  else match zip_entry zs rel with
       | Some e => Some e
       | None => if leads_to rel m then Some EDir else None
       end.
Proof.
  unfold zip_entry. rewrite List.filter_app, existsb_app. simpl.
  destruct (named rel m) eqn:N.
  - now rewrite last_snoc.
  - rewrite app_nil_r. destruct (last (List.filter (named rel) zs)); [reflexivity |].
    rewrite orb_false_r. now destruct (existsb (leads_to rel) zs), (leads_to rel m).
Qed.

Lemma zip_entry_named (zs : list (path * entry)) (rel : path) (e : entry) :
  zip_entry zs rel = Some e ->
  (exists f, f ∈ zs /\ member_path (fst f) = rel /\ snd f = e) \/
  (e = EDir /\ exists m, m ∈ zs /\ leads_to rel m = true).
Proof.
  unfold zip_entry.
  destruct (last (List.filter (named rel) zs)) as [f |] eqn:L.
  - intros H. inversion H; subst. left. exists f.
    apply last_Some in L as [l' L].
    assert (Hin : In f (List.filter (named rel) zs))
      by (rewrite L; apply in_or_app; right; now left).
    apply filter_In in Hin as [Hin Hn].
    split; [now apply list_elem_of_In |].
    split; [now apply bool_decide_eq_true in Hn | reflexivity].
  - destruct (existsb (leads_to rel) zs) eqn:Ex; [| discriminate].
    intros H. inversion H; subst. right. split; [reflexivity |].
    apply existsb_exists in Ex as (m & Hin & Hm).
    exists m. split; [now apply list_elem_of_In | assumption].
Qed.

Lemma leads_to_spec (rel : path) (m : path * entry) :
  leads_to rel m = true <->
  rel `prefix_of` member_path (fst m) /\ rel <> member_path (fst m).
Proof.
  unfold leads_to, named. rewrite andb_true_iff, negb_true_iff.
  rewrite bool_decide_eq_true, bool_decide_eq_false. split.
  - intros [H1 H2]. split; [assumption | congruence].
  - intros [H1 H2]. split; [assumption | congruence].
Qed.

(** What a path of the archive leads to or names is a member. *)
Lemma zip_entry_member (zs : list (path * entry)) (rel : path) :
  is_Some (zip_entry zs rel) ->
  exists m, m ∈ zs /\ rel `prefix_of` member_path (fst m).
Proof.
  intros [e He].
  apply zip_entry_named in He as [(f & Hin & Hn & _) | (_ & m & Hin & Hm)].
  - exists f. split; [assumption |]. now rewrite Hn.
  - exists m. split; [assumption |]. now apply leads_to_spec in Hm.
Qed.

Lemma zip_consistent_spec (zs : list (path * entry)) :
  zip_consistent zs = true ->
  forall f m, f ∈ zs -> m ∈ zs -> in_the_way f m = false.
Proof.
  unfold zip_consistent. intros H f m Hf Hm.
  rewrite forallb_forall in H. specialize (H f (proj1 (list_elem_of_In _ _) Hf)).
  rewrite forallb_forall in H. specialize (H m (proj1 (list_elem_of_In _ _) Hm)).
  now apply negb_true_iff in H.
Qed.

Lemma not_in_the_way (f m : path * entry) (b : blob) :
  in_the_way f m = false ->
  snd f = EFile b ->
  member_path (fst f) `prefix_of` member_path (fst m) ->
  member_path (fst m) = member_path (fst f) /\ is_file (snd m) = true.
Proof.
  unfold in_the_way, named. intros H Hf Hp. rewrite Hf in H. simpl in H.
  rewrite bool_decide_eq_true_2 in H by assumption. simpl in H.
  apply negb_false_iff, andb_true_iff in H as [H1 H2].
  now apply bool_decide_eq_true in H1.
Qed.

(** With no file of it in the way of another member, a file's directory
    is a directory of the archive. *)
Lemma zip_entry_parent (zs : list (path * entry)) (r rel : path) :
  zip_consistent zs = true ->
  is_Some (zip_entry zs rel) ->
  r `prefix_of` rel -> r <> rel ->
  zip_entry zs r = Some EDir.
Proof.
  intros Hc Hsome Hp Hne.
  destruct (zip_entry_member _ _ Hsome) as (m & Hm & Hrel).
  assert (Hrm : r `prefix_of` member_path (fst m)) by (etransitivity; eassumption).
  assert (Hneq : r <> member_path (fst m)).
  { intros ->. apply Hne. apply prefix_length_eq; [assumption |].
    now apply prefix_length. }
  assert (Hlead : existsb (leads_to r) zs = true).
  { apply existsb_exists. exists m. split; [now apply list_elem_of_In |].
    now apply leads_to_spec. }
  destruct (zip_entry zs r) as [e |] eqn:Z.
  - apply zip_entry_named in Z as [(f & Hf & Hn & He) | [-> _]]; [| reflexivity].
    destruct e as [| b]; [reflexivity |].
    destruct (not_in_the_way f m b (zip_consistent_spec _ Hc _ _ Hf Hm) He)
      as [Heq _]; [now rewrite Hn |].
    congruence.
  - unfold zip_entry in Z. rewrite Hlead in Z.
    now destruct (last (List.filter (named r) zs)).
Qed.

(** ** What extraction lays out *)

Lemma extract_member_lays_out (dest : path) (d0 : gmap path entry)
    (done : list (path * entry)) (m : path * entry) (d : gmap path entry) :
  dest <> [] ->
  (forall r, r <> [] -> r `prefix_of` dest -> r <> dest -> d0 !! r = Some EDir) ->
  laid_out dest d0 done d ->
  (forall f, f ∈ done -> in_the_way f m = false /\ in_the_way m f = false) ->
  exists d', extract_member dest m d = inr d' /\ laid_out dest d0 (done ++ [m]) d'.
Proof.
  intros Hdest Habove Hlaid Hcons.
  set (sn := member_path (fst m)). set (target := dest ++ sn).
  assert (Hsn : sanitize (fst m) = sn) by apply sanitize_member_path.
  assert (Htarget : target <> []).
  { unfold target. intros E. apply app_eq_nil in E as [? _]. contradiction. }
  assert (Hunder : forall rel, d !! (dest ++ rel) = zip_entry done rel).
  { intros rel. rewrite Hlaid. rewrite decide_True by (now exists rel).
    now rewrite drop_app_length. }
  assert (Hout : forall q, ~ dest `prefix_of` q -> d !! q = d0 !! q).
  { intros q Hq. rewrite Hlaid. now rewrite decide_False. }
  assert (Hway : forall r, r `prefix_of` removelast target ->
                           (~ dest `prefix_of` r /\ r `prefix_of` dest /\ r <> dest) \/
                           exists rel, r = dest ++ rel /\ rel `prefix_of` sn /\ rel <> sn).
  { intros r Hp. apply prefix_removelast in Hp as [Hp Hne]; [| assumption].
    destruct (decide (dest `prefix_of` r)) as [[rel ->] | Hnd].
    - right. exists rel. split; [reflexivity |]. split.
      + destruct Hp as [k Hk]. unfold target in Hk. rewrite <- app_assoc in Hk.
        apply app_inv_head in Hk. now exists k.
      + intros ->. now apply Hne.
    - left. split; [assumption |].
      destruct (prefix_weak_total r dest target Hp
                  (prefix_app_r dest dest sn (reflexivity _))) as [Hrd | Hdr];
        [| contradiction].
      split; [assumption |]. intros ->. now apply Hnd. }
  assert (Hfree : forall r b, r <> [] -> r `prefix_of` removelast target ->
                              d !! ([] ++ r) <> Some (EFile b)).
  { intros r b Hr Hp. simpl.
    destruct (Hway r Hp) as [(Hnd & Hrd & Hne) | (rel & -> & Hrel & Hne)].
    - rewrite (Hout _ Hnd), (Habove _ Hr Hrd Hne). discriminate.
    - rewrite Hunder. intros Hz.
      apply zip_entry_named in Hz as [(f & Hf & Hn & He) | [? _]];
        [| discriminate].
      destruct (not_in_the_way f m b (proj1 (Hcons f Hf)) He) as [Heq _];
        [now rewrite Hn |].
      apply Hne. fold sn in Heq. congruence. }
  destruct (makedirs_succeeds _ [] (option_list (last target)) d Hfree) as [d1 M].
  assert (G2 : d1 !! target = d !! target).
  { apply (makedirs_frame _ _ _ _ _ _ M). intros r Hr Hp Heq. simpl in Heq.
    subst r. apply prefix_removelast in Hp as [_ Hne]; [| assumption].
    now destruct Hne. }
  assert (G3 : forall rel, rel <> sn ->
                 d1 !! (dest ++ rel) =
                 match zip_entry done rel with
                 | Some e => Some e
                 | None => if leads_to rel m then Some EDir else None
                 end).
  { intros rel Hrel. destruct (zip_entry done rel) as [e |] eqn:Z.
    - apply (makedirs_preserves _ _ _ _ _ _ _ M). now rewrite Hunder.
    - destruct (leads_to rel m) eqn:L.
      + apply leads_to_spec in L as [Hp Hne].
        apply (makedirs_creates _ [] _ _ _ (dest ++ rel) M).
        * intros E. apply app_eq_nil in E as [? _]. contradiction.
        * apply prefix_removelast; [assumption |]. split.
          -- now apply prefix_app.
          -- intros E. apply app_inv_head in E. contradiction.
      + rewrite (makedirs_frame _ _ _ _ _ _ M); [now rewrite Hunder |].
        intros r Hr Hp Heq. simpl in Heq. subst r.
        destruct (Hway _ Hp) as [(Hnd & _) | (rel' & Heq & Hp' & Hne)].
        * destruct Hnd. now exists rel.
        * apply app_inv_head in Heq. subst rel'.
          assert (leads_to rel m = true) by (now apply leads_to_spec).
          congruence. }
  assert (G4 : forall q, ~ dest `prefix_of` q -> d1 !! q = d0 !! q).
  { intros q Hq. rewrite <- (Hout _ Hq).
    apply (makedirs_frame _ _ _ _ _ _ M). intros r Hr Hp Heq. simpl in Heq.
    subst r. destruct (Hway _ Hp) as [(_ & Hrd & Hne) | (rel & -> & _)].
    - rewrite (Hout _ Hq), (Habove _ Hr Hrd Hne). eauto.
    - destruct Hq. now exists rel. }
  assert (Hd' : exists d',
             extract_member dest m d = inr d' /\
             d' !! target = Some (snd m) /\
             forall q, q <> target -> d' !! q = d1 !! q).
  { assert (Hdt : d !! target = zip_entry done sn) by apply Hunder.
    unfold extract_member. rewrite Hsn. fold target. rewrite M, G2, Hdt.
    destruct (snd m) as [| b] eqn:Em;
      destruct (zip_entry done sn) as [[| b'] |] eqn:Z.
    - exists d1. split; [reflexivity |]. split; [| reflexivity].
      now rewrite G2, Hdt.
    - exfalso.
      apply zip_entry_named in Z as [(f & Hf & Hn & He) | [? _]];
        [| discriminate].
      destruct (not_in_the_way f m b' (proj1 (Hcons f Hf)) He) as [_ Hfile];
        [now rewrite Hn |].
      rewrite Em in Hfile. discriminate.
    - eexists. split; [reflexivity |]. split; [apply lookup_insert_eq |].
      intros q Hq. now apply lookup_insert_ne.
    - exfalso.
      apply zip_entry_named in Z as [(f & Hf & Hn & He) | (_ & m' & Hm' & L)].
      + destruct (not_in_the_way m f b (proj2 (Hcons f Hf)) Em) as [_ Hfile];
          [fold sn; now rewrite Hn |].
        rewrite He in Hfile. discriminate.
      + apply leads_to_spec in L as [Hp Hne].
        destruct (not_in_the_way m m' b (proj2 (Hcons m' Hm')) Em) as [Heq _];
          [assumption |].
        apply Hne. now rewrite Heq.
    - eexists. split; [reflexivity |]. split; [apply lookup_insert_eq |].
      intros q Hq. now apply lookup_insert_ne.
    - eexists. split; [reflexivity |]. split; [apply lookup_insert_eq |].
      intros q Hq. now apply lookup_insert_ne. }
  destruct Hd' as (d' & Hrun & Hat & Helse).
  exists d'. split; [assumption |].
  intros q. destruct (decide (dest `prefix_of` q)) as [Hq | Hq].
  - rewrite (drop_prefix _ _ Hq) at 1.
    set (rel := drop (length dest) q).
    rewrite zip_entry_snoc. unfold named. fold sn.
    destruct (decide (sn = rel)) as [<- | Hne].
    + rewrite bool_decide_eq_true_2 by reflexivity. exact Hat.
    + rewrite bool_decide_eq_false_2 by assumption.
      rewrite Helse by (unfold target; intros E; apply app_inv_head in E; congruence).
      apply G3. congruence.
  - rewrite Helse by (intros ->; apply Hq; now exists sn).
    now apply G4.
Qed.

(** Extracting an archive in which no file is in the way of another
    member, to a destination where nothing is and whose parent
    directories exist, returns and lays the archive out. *)
Lemma extractall_lays_out (dest : path) (d0 : gmap path entry)
    (ms : list (path * entry)) :
  dest <> [] ->
  (forall r, r <> [] -> r `prefix_of` dest -> r <> dest -> d0 !! r = Some EDir) ->
  forall done d,
    laid_out dest d0 done d ->
    zip_consistent (done ++ ms) = true ->
    exists d', extractall ms dest d = inr d' /\ laid_out dest d0 (done ++ ms) d'.
Proof.
  intros Hdest Habove.
  induction ms as [|m ms IH]; intros done d Hlaid Hc; simpl.
  - exists d. split; [reflexivity |]. now rewrite app_nil_r.
  - destruct (extract_member_lays_out dest d0 done m d Hdest Habove Hlaid)
      as (d1 & E & Hlaid1).
    { intros f Hf.
      split; apply (zip_consistent_spec _ Hc);
        rewrite elem_of_app, elem_of_cons; auto. }
    rewrite E. rewrite cons_middle, app_assoc in Hc |- *.
    now apply IH.
Qed.

(** Names are cleaned, parent directories are made, and a file in the
    way stops the extraction where it is. *)
Example extraction_cleans_names :
  match extractall [ ([""; "a"; "."; "b"], EFile (Raw "x"));
                     ([".."; "c"; ""], EDir) ] ["d"] ∅ with
  | inr d =>
      (map_to_list d).*1 ≡ₚ [ ["d"]; ["d"; "a"]; ["d"; "a"; "b"]; ["d"; "c"] ] /\
      d !! ["d"; "a"; "b"] = Some (EFile (Raw "x")) /\
      d !! ["d"; "c"] = Some EDir
  | inl _ => False
  end.
Proof.
  vm_compute. split; [| split; reflexivity].
  apply (bool_decide_unpack _). vm_compute. reflexivity.
Qed.

Example extraction_stops_at_a_file :
  match extractall [ (["a"], EFile (Raw "x"));
                     (["a"; "b"; "c"], EFile (Raw "y")) ] ["d"] ∅ with
  | inl (e, d) =>
      e = NotADirectoryError "/d/a/b" /\
      (map_to_list d).*1 ≡ₚ [ ["d"]; ["d"; "a"] ]
  | inr _ => False
  end.
Proof.
  vm_compute. split; [reflexivity |].
  apply (bool_decide_unpack _). vm_compute. reflexivity.
Qed.

(** ** Archiving *)

Lemma elem_of_below (root skip : path) (d : gmap path entry)
    (rel : path) (e : entry) :
  (rel, e) ∈ below root skip d <->
  d !! (root ++ rel) = Some e /\ rel <> [] /\ root ++ rel <> skip.
Proof.
  unfold below. rewrite list_elem_of_omap. split.
  - intros [[k e'] [Hin Hf]]. apply elem_of_map_to_list in Hin. simpl in Hf.
    case_decide as Hd; [| discriminate].
    inversion Hf; subst. destruct Hd as ([suffix ->] & Hne & Hskip).
    rewrite drop_app_length. split; [assumption | split; [| assumption]].
    intros ->. apply Hne. now rewrite app_nil_r.
  - intros (Hl & Hne & Hskip). exists (root ++ rel, e).
    split; [now apply elem_of_map_to_list |]. simpl.
    rewrite decide_True.
    + now rewrite drop_app_length.
    + split; [now exists rel | split; [| assumption]].
      intros Heq. apply Hne. apply (app_inv_head root).
      now rewrite app_nil_r.
Qed.

(** What [tar.add] archives is the tree at its source, but for the
    archive itself. *)
Lemma elem_of_walk (src skip : path) (d : gmap path entry)
    (ms : list (path * entry)) :
  src <> skip ->
  walk src skip d = Some ms ->
  forall rel e,
    (rel, e) ∈ ms <-> in_tree d src rel e /\ src ++ rel <> skip.
Proof.
  intros Hskip H rel e. unfold walk in H.
  rewrite decide_False in H by assumption. unfold in_tree.
  destruct (d !! src) as [[| b] |] eqn:E; inversion H; subst; clear H.
  - rewrite elem_of_cons, elem_of_below. split.
    + intros [Heq | (Hl & Hne & Hs)].
      * inversion Heq; subst. rewrite app_nil_r. auto.
      * auto.
    + intros [[Hl _] Hs]. destruct rel as [|c rel].
      * left. rewrite app_nil_r, E in Hl. now inversion Hl.
      * right. auto.
  - rewrite list_elem_of_singleton. split.
    + intros Heq. inversion Heq; subst. rewrite app_nil_r. auto.
    + intros [[Hl [-> | Hdir]] _]; [| discriminate].
      rewrite app_nil_r, E in Hl. now inversion Hl.
Qed.

Lemma elem_of_rebase (arc : path) (ms : list (path * entry))
    (name : path) (e : entry) :
  (name, e) ∈ rebase arc ms <-> exists rel, name = arc ++ rel /\ (rel, e) ∈ ms.
Proof.
  unfold rebase. rewrite list_elem_of_In, in_map_iff. split.
  - intros [[rel e'] [Heq Hin]]. simpl in Heq. inversion Heq; subst.
    exists rel. split; [reflexivity | now apply list_elem_of_In].
  - intros [rel [-> Hin]]. exists (rel, e).
    split; [reflexivity | now apply list_elem_of_In].
Qed.

(** No entry is archived twice. *)
Lemma NoDup_below (root skip : path) (d : gmap path entry) :
  NoDup ((below root skip d).*1).
Proof.
  unfold below. pose proof (NoDup_fst_map_to_list d) as Hnd.
  induction (map_to_list d) as [|[k e] l IH]; simpl; [constructor |].
  simpl in Hnd. apply NoDup_cons in Hnd as [Hk Hnd].
  case_decide as Hd; simpl; [| now apply IH].
  constructor; [| now apply IH].
  intros Hin. apply Hk.
  apply list_elem_of_fmap in Hin as [[rel e'] [Hrel Hin]]. simpl in Hrel.
  apply list_elem_of_omap in Hin as [[k' e''] [Hin Hf]]. simpl in Hf.
  case_decide as Hd'; [| discriminate]. injection Hf as Hr He.
  rewrite <- Hr in Hrel.
  destruct Hd as ([s Hs] & _). destruct Hd' as ([s' Hs'] & _).
  rewrite Hs, Hs', !drop_app_length in Hrel.
  apply list_elem_of_fmap. exists (k', e''). split; [| assumption].
  simpl. congruence.
Qed.

Lemma NoDup_walk (src skip : path) (d : gmap path entry)
    (ms : list (path * entry)) :
  walk src skip d = Some ms -> NoDup (ms.*1).
Proof.
  unfold walk. case_decide as Hskip.
  - intros H. inversion H. constructor.
  - destruct (d !! src) as [[| b] |]; intros H; inversion H; subst; simpl.
    + constructor; [| apply NoDup_below].
      intros Hin. apply list_elem_of_fmap in Hin as [[rel e] [Hrel Hin]].
      simpl in Hrel. subst rel. apply elem_of_below in Hin as (_ & Hne & _).
      now apply Hne.
    + apply NoDup_singleton.
Qed.

Lemma NoDup_rebase (arc : path) (ms : list (path * entry)) :
  NoDup (ms.*1) -> NoDup ((rebase arc ms).*1).
Proof.
  induction ms as [|[n e] ms IH]; simpl; intros H; [constructor |].
  apply NoDup_cons in H as [Hn H]. constructor; [| auto].
  intros Hin. apply Hn.
  apply list_elem_of_fmap in Hin as [[n' e'] [Heq Hin]]. simpl in Heq.
  apply elem_of_rebase in Hin as [rel [-> Hin]].
  apply app_inv_head in Heq. subst rel.
  apply list_elem_of_fmap. now exists (n, e').
Qed.

(** The archive's path is not a path of the extracted bundle. *)
Lemma model_tar_gz_outside (c : string) (rel : path) :
  model_dir ++ [c] ++ rel <> model_tar_gz.
Proof. discriminate. Qed.

Lemma in_tree_insert_outside (d : gmap path entry) (c : string)
    (x : entry) (rel : path) (e : entry) :
  in_tree (<[model_tar_gz := x]> d) (model_dir ++ [c]) rel e
  <-> in_tree d (model_dir ++ [c]) rel e.
Proof.
  unfold in_tree.
  rewrite !lookup_insert_ne by discriminate. reflexivity.
Qed.

Lemma remove_tree_lookup (p : path) (d : gmap path entry) (q : path) :
  remove_tree p d !! q = if decide (p `prefix_of` q) then None else d !! q.
Proof.
  unfold remove_tree. destruct (decide (p `prefix_of` q)) as [Hp | Hp].
  - apply map_lookup_filter_None. right. intros x _ Hn. now apply Hn.
  - destruct (d !! q) as [e |] eqn:E.
    + apply map_lookup_filter_Some. auto.
    + apply map_lookup_filter_None. auto.
Qed.

(** ** The file calls, one by one *)

Section DiskSteps.

Context {W0 : Type}.
Variable exec0 : forall o : op, W0 -> W0 * (exn + ret o).
Variable bundle_of : PipelineModel -> list (path * entry).

Abbreviation step := (disk_exec exec0 bundle_of).

Lemma step_import (m : string) (w0 w1 : W0) (fs : local) :
  exec0 (Import m) w0 = (w1, inr tt) ->
  step (Import m) (w0, fs) = ((w1, fs), inr tt).
Proof. intros H. unfold disk_exec. simpl. now rewrite H. Qed.

Lemma step_zip_open (file : string) (w0 : W0) (fs : local)
    (ms : list (path * entry)) :
  disk fs !! parse_path file = Some (EFile (Archive ZipFormat ms)) ->
  step (ZipOpen file) (w0, fs)
  = ((w0, {| disk := disk fs; open_zips := open_zips fs ++ [ms];
             open_tars := open_tars fs; objects := objects fs |}),
     inr (ZF (length (open_zips fs)))).
Proof. intros H. unfold disk_exec. simpl. now rewrite H. Qed.

Lemma step_extractall (h : nat) (dest : string) (w0 : W0) (fs : local)
    (ms : list (path * entry)) (d : gmap path entry) :
  open_zips fs !! h = Some ms ->
  extractall ms (parse_path dest) (disk fs) = inr d ->
  step (ExtractAll (ZF h) dest) (w0, fs) = ((w0, set_disk fs d), inr tt).
Proof. intros H1 H2. unfold disk_exec. simpl. now rewrite H1, H2. Qed.

Lemma step_tar_open (file : string) (w0 : W0) (fs : local) :
  disk fs !! parse_path file <> Some EDir ->
  step (TarOpen file "w:gz") (w0, fs)
  = ((w0, {| disk := <[parse_path file := EFile (Archive TarGzFormat [])]> (disk fs);
             open_zips := open_zips fs;
             open_tars := open_tars fs ++ [parse_path file];
             objects := objects fs |}),
     inr (TF (length (open_tars fs)))).
Proof.
  intros H. unfold disk_exec. simpl.
  destruct (disk fs !! parse_path file) as [[| b] |]; congruence.
Qed.

Lemma step_tar_add (h : nat) (src arcname : string) (w0 : W0) (fs : local)
    (archive : path) (ms added : list (path * entry)) :
  open_tars fs !! h = Some archive ->
  disk fs !! archive = Some (EFile (Archive TarGzFormat ms)) ->
  walk (parse_path src) archive (disk fs) = Some added ->
  step (TarAdd (TF h) src arcname) (w0, fs)
  = ((w0, set_disk fs
            (<[archive := EFile (Archive TarGzFormat
                                   (ms ++ rebase (parse_path arcname) added))]>
               (disk fs))),
     inr tt).
Proof. intros H1 H2 H3. unfold disk_exec. simpl. now rewrite H1, H2, H3. Qed.

Lemma step_remove (file : string) (w0 : W0) (fs : local) (b : blob) :
  disk fs !! parse_path file = Some (EFile b) ->
  step (OsRemove file) (w0, fs)
  = ((w0, set_disk fs (delete (parse_path file) (disk fs))), inr tt).
Proof. intros H. unfold disk_exec. simpl. now rewrite H. Qed.

Lemma step_rmtree (dir : string) (w0 : W0) (fs : local) :
  disk fs !! parse_path dir = Some EDir ->
  step (Rmtree dir) (w0, fs)
  = ((w0, set_disk fs (remove_tree (parse_path dir) (disk fs))), inr tt).
Proof. intros H. unfold disk_exec. simpl. now rewrite H. Qed.

Lemma walk_is_Some (src skip : path) (d : gmap path entry) :
  is_Some (d !! src) -> is_Some (walk src skip d).
Proof.
  intros [e He]. unfold walk. case_decide; [eauto |].
  rewrite He. destruct e; eauto.
Qed.

(** The repackaging cell from a disk with the zip file, on which the
    extraction succeeds and leaves [bundle.json] and [root]: what is
    archived is what the two trees hold on disk. *)
Lemma cell28_returns (w0 : W0) (fs : local)
    (zs : list (path * entry)) (d1 : gmap path entry) :
  (forall m w, exists w1, exec0 (Import m) w = (w1, inr tt)) ->
  disk fs !! model_zip = Some (EFile (Archive ZipFormat zs)) ->
  extractall zs model_dir (disk fs) = inr d1 ->
  is_Some (d1 !! (model_dir ++ ["bundle.json"])) ->
  is_Some (d1 !! (model_dir ++ ["root"])) ->
  d1 !! model_tar_gz <> Some EDir ->
  exists tr w0' ms,
    run step Emr.cell28 (w0, fs)
    = (tr, inr tt,
       (w0', {| disk := <[model_tar_gz := EFile (Archive TarGzFormat ms)]> d1;
                open_zips := open_zips fs ++ [zs];
                open_tars := open_tars fs ++ [model_tar_gz];
                objects := objects fs |})) /\
    NoDup (ms.*1) /\
    forall name e,
      (name, e) ∈ ms <->
      exists rel,
        (name = "bundle.json" :: rel /\
         in_tree d1 (model_dir ++ ["bundle.json"]) rel e) \/
        (name = "root" :: rel /\
         in_tree d1 (model_dir ++ ["root"]) rel e).
Proof.
  intros Himp Hzip Hext Hbundle Hroot Htar.
  destruct (Himp "zipfile" w0) as [w1 I1].
  destruct (Himp "tarfile" w1) as [w2 I2].
  set (d2 := <[model_tar_gz := EFile (Archive TarGzFormat [])]> d1).
  destruct (walk_is_Some (model_dir ++ ["bundle.json"]) model_tar_gz d2)
    as [added1 Hw1].
  { unfold d2. now rewrite lookup_insert_ne by discriminate. }
  set (ms1 := [] ++ rebase ["bundle.json"] added1).
  set (d3 := <[model_tar_gz := EFile (Archive TarGzFormat ms1)]> d2).
  destruct (walk_is_Some (model_dir ++ ["root"]) model_tar_gz d3)
    as [added2 Hw2].
  { unfold d3, d2. now rewrite !lookup_insert_ne by discriminate. }
  set (ms2 := ms1 ++ rebase ["root"] added2).
  eexists _, w2, ms2. split; [| split].
  - unfold Emr.cell28, With. cbn [run].
    rewrite (step_import _ _ _ _ I1).
    rewrite (step_zip_open "/tmp/model.zip" _ _ _ Hzip). cbn [run].
    erewrite step_extractall;
      [| apply list_lookup_middle; reflexivity | exact Hext].
    cbn [run set_disk disk open_zips open_tars objects app].
    unfold disk_exec at 1. cbn [local_step snd fst].
    cbn [run app].
    rewrite (step_import _ _ _ _ I2).
    rewrite step_tar_open by exact Htar.
    cbn [run set_disk disk open_zips open_tars objects app].
    erewrite step_tar_add;
      [| apply list_lookup_middle; reflexivity
       | apply lookup_insert_eq
       | exact Hw1].
    cbn [run set_disk disk open_zips open_tars objects app].
    erewrite step_tar_add;
      [| apply list_lookup_middle; reflexivity
       | apply lookup_insert_eq
       | exact Hw2].
    cbn [run set_disk disk open_zips open_tars objects app].
    unfold disk_exec at 1. cbn [local_step snd fst].
    rewrite parse_model_tar_gz. fold d2. fold ms1. fold d3. fold ms2.
    unfold d3, d2. rewrite !insert_insert_eq. reflexivity.
  - unfold ms2, ms1. rewrite app_nil_l, fmap_app. apply NoDup_app.
    split; [apply NoDup_rebase, (NoDup_walk _ _ _ _ Hw1) |].
    split; [| apply NoDup_rebase, (NoDup_walk _ _ _ _ Hw2)].
    intros name Hin1 Hin2.
    apply list_elem_of_fmap in Hin1 as [[n1 e1] [-> Hin1]].
    apply list_elem_of_fmap in Hin2 as [[n2 e2] [Heq Hin2]].
    apply elem_of_rebase in Hin1 as [rel1 [Hn1 _]].
    apply elem_of_rebase in Hin2 as [rel2 [Hn2 _]].
    simpl in Heq, Hn1, Hn2. subst n1 n2. discriminate.
  - intros name e. unfold ms2, ms1. rewrite app_nil_l.
    rewrite elem_of_app, !elem_of_rebase.
    split.
    + intros [[rel [-> Hin]] | [rel [-> Hin]]]; exists rel; [left | right];
        (split; [reflexivity |]).
      * apply (elem_of_walk _ _ _ _ (model_tar_gz_outside "bundle.json" []) Hw1)
          in Hin as [Hin _].
        unfold d2 in Hin. now apply in_tree_insert_outside in Hin.
      * apply (elem_of_walk _ _ _ _ (model_tar_gz_outside "root" []) Hw2)
          in Hin as [Hin _].
        unfold d3, d2 in Hin. now apply in_tree_insert_outside,
          in_tree_insert_outside in Hin.
    + intros [rel [[-> Hin] | [-> Hin]]]; [left | right]; exists rel;
        (split; [reflexivity |]).
      * apply (elem_of_walk _ _ _ _ (model_tar_gz_outside "bundle.json" []) Hw1).
        split; [| rewrite <- app_assoc; apply model_tar_gz_outside].
        unfold d2. now apply in_tree_insert_outside.
      * apply (elem_of_walk _ _ _ _ (model_tar_gz_outside "root" []) Hw2).
        split; [| rewrite <- app_assoc; apply model_tar_gz_outside].
        unfold d3, d2. now apply in_tree_insert_outside, in_tree_insert_outside.
Qed.


(** C9. With the three artifacts on disk, the clean-up cell completes
    with the calls below; afterwards [/tmp/model.zip],
    [/tmp/model.tar.gz] and everything at or below [/tmp/model] are
    gone, every other path holds what it held, the object store is as it
    was, and writing a bundle to [/tmp/model.zip] again does not fail
    with a file-exists error. *)
Theorem cleanup_removes_three_artifacts (w0 : W0) (fs : local) (z t : blob) :
  disk fs !! model_zip = Some (EFile z) ->
  disk fs !! model_tar_gz = Some (EFile t) ->
  disk fs !! model_dir = Some EDir ->
  exists tr fs',
    run step Emr.cell32 (w0, fs) = (tr, inr tt, (w0, fs')) /\
    ops tr = [ OsRemove "/tmp/model.zip"; OsRemove "/tmp/model.tar.gz";
               Rmtree "/tmp/model" ] /\
    (forall p,
       disk fs' !! p =
       if decide (p = model_zip \/ p = model_tar_gz \/ model_dir `prefix_of` p)
       then None
       else disk fs !! p) /\
    objects fs' = objects fs /\
    forall m df file,
      snd (step (SerializeToBundle m "jar:file:/tmp/model.zip" df) (w0, fs'))
      <> inl (FileExistsError file).
Proof.
  intros Hzip Htar Hdir.
  eexists _, _. split; [| split; [| split; [| split]]].
  - unfold Emr.cell32. cbn [run].
    rewrite (step_remove "/tmp/model.zip" _ _ z) by exact Hzip.
    cbn [run].
    rewrite (step_remove "/tmp/model.tar.gz" _ _ t)
      by (cbn [set_disk disk]; rewrite parse_model_zip, parse_model_tar_gz;
          rewrite lookup_delete_ne by discriminate; exact Htar).
    cbn [run].
    rewrite step_rmtree
      by (cbn [set_disk disk];
          rewrite parse_model_zip, parse_model_tar_gz, parse_model_dir;
          rewrite !lookup_delete_ne by discriminate; exact Hdir).
    cbn [app]. reflexivity.
  - reflexivity.
  - intros p. cbn [set_disk disk].
    rewrite parse_model_zip, parse_model_tar_gz, parse_model_dir.
    rewrite remove_tree_lookup.
    destruct (decide (model_dir `prefix_of` p)) as [Hp | Hp].
    + rewrite decide_True by auto. reflexivity.
    + destruct (decide (p = model_tar_gz)) as [-> | Ht].
      * rewrite lookup_delete_eq, decide_True by auto. reflexivity.
      * rewrite lookup_delete_ne by auto.
        destruct (decide (p = model_zip)) as [-> | Hz].
        -- rewrite lookup_delete_eq, decide_True by auto. reflexivity.
        -- rewrite lookup_delete_ne by auto.
           rewrite decide_False by tauto. reflexivity.
  - reflexivity.
  - intros m df file. unfold disk_exec.
    cbn [local_step snd fst strip_prefix Ascii.eqb Bool.eqb set_disk disk].
    rewrite parse_model_zip, parse_model_tar_gz, parse_model_dir.
    rewrite remove_tree_lookup.
    rewrite decide_False by (intros [k Hk]; discriminate Hk).
    rewrite lookup_delete_ne by discriminate.
    rewrite lookup_delete_eq. discriminate.
Qed.

End DiskSteps.

Lemma inr_by_evaluation {E A : Type} (x : E + A) (dflt : A) :
  match x with
  | inr _ => true
  | inl _ => false
  end = true ->
  x = inr match x with
          | inr a => a
          | inl _ => dflt
          end.
Proof. destruct x; [discriminate | reflexivity]. Qed.



(** The clean-up cell on the sample disk, after the upload. *)
Lemma cleanup_removes_three_artifacts_witness :
  exists tr fs',
    run sample_exec Emr.cell32 (0, sample_uploaded) = (tr, inr tt, (0, fs')) /\
    ops tr = [ OsRemove "/tmp/model.zip"; OsRemove "/tmp/model.tar.gz";
               Rmtree "/tmp/model" ] /\
    (forall p,
       disk fs' !! p =
       if decide (p = model_zip \/ p = model_tar_gz \/ model_dir `prefix_of` p)
       then None
       else disk sample_uploaded !! p) /\
    objects fs' = objects sample_uploaded /\
    forall m df file,
      snd (sample_exec (SerializeToBundle m "jar:file:/tmp/model.zip" df) (0, fs'))
      <> inl (FileExistsError file).
Proof.
  apply (cleanup_removes_three_artifacts exec_fresh (fun _ => sample_bundle)
           0 sample_uploaded
           (Archive ZipFormat sample_bundle)
           (Archive TarGzFormat
              match disk sample_uploaded !! model_tar_gz with
              | Some (EFile (Archive _ ms)) => ms
              | _ => []
              end)).
  - vm_compute. reflexivity.
  - vm_compute. reflexivity.
  - vm_compute. reflexivity.
Defined.

(** On the sample disk, cells 26 to 32 in a row leave the disk as it was
    and the archive in the object store. *)
Example sample_disk_round_trip :
  let '(_, res, (_, fs)) :=
    run sample_exec
      (Emr.cell26 (PM 0) (DF 1) ;; Emr.cell28 ;; Emr.cell30 ;; Emr.cell32)
      (0, sample_disk) in
  res = inr tt /\ map_to_list (disk fs) = map_to_list (disk sample_disk) /\
  exists ms,
    objects fs !! ("<your-output-bucket-name>", "emr/abalone/mleap/model.tar.gz")
    = Some (Archive TarGzFormat ms) /\
    ms.*1 ≡ₚ [ ["bundle.json"]; ["root"]; ["root"; "model.json"];
               ["root"; "features"]; ["root"; "features"; "node.json"] ].
Proof.
  vm_compute. split; [reflexivity | split; [reflexivity |]].
  eexists. split; [reflexivity |].
  apply (bool_decide_unpack _). vm_compute. reflexivity.
Qed.

(** * Further properties of every run *)

Section EveryRun.

Context {W : Type}.
Variable exec : forall o : op, W -> W * (exn + ret o).

(** One case analysis of the run for the three properties below. *)
Lemma notebook_run_invariants (w : W) :
  let '(tr, res, _) := run exec notebook w in
  (exited tr = opened tr /\
   (closed tr = opened tr \/
    exists h e,
      opened tr = closed tr ++ [h] /\
      last tr = Some (Ev (exit_call h) (inl e)) /\
      res = inl e)) /\
  removals_follow_upload false tr = true /\
  (forall e, res = inl e ->
     forallb (fun ev => negb (is_delete (ev_op ev)) || negb (has_succeeded ev)) tr
     = true).
Proof.
  run_cases exec;
    (split;
     [ split;
       [ reflexivity
       | first
           [ left; reflexivity
           | right; eexists _, _;
             split; [reflexivity | split; reflexivity] ] ]
     | split; [reflexivity |] ]);
    intros ? Hraised; try discriminate Hraised; reflexivity.
Qed.

End EveryRun.

(** What [removals_follow_upload] checks, spelled out. *)
Lemma removals_follow_upload_sound (tr : list event) :
  forall uploaded,
    removals_follow_upload uploaded tr = true ->
    forall before ev after,
      tr = before ++ ev :: after ->
      is_removal (ev_op ev) = true ->
      uploaded = true \/
      exists u, In u before /\ is_upload (ev_op u) = true /\ succeeded u.
Proof.
  induction tr as [|x tr IH]; intros uploaded H before ev after Heq Hrm.
  - destruct before; discriminate.
  - simpl in H. destruct before as [|b before]; simpl in Heq;
      inversion Heq; subst; clear Heq.
    + rewrite Hrm in H. apply andb_true_iff in H as [H _]. now left.
    + destruct (is_removal (ev_op b)) eqn:Eb.
      * apply andb_true_iff in H as [Hu H].
        destruct (IH _ H _ _ _ eq_refl Hrm) as [? | (u & Hin & Hup & Hok)];
          [now left | right; exists u; simpl; auto].
      * destruct (is_upload (ev_op b)) eqn:Ub.
        -- destruct (IH _ H _ _ _ eq_refl Hrm) as [Hor | (u & Hin & Hup & Hok)].
           ++ apply orb_true_iff in Hor as [? | Hs]; [now left |].
              right. exists b. simpl. split; [now left | split; [assumption |]].
              unfold has_succeeded in Hs. unfold succeeded.
              now destruct (ev_error b).
           ++ right; exists u; simpl; auto.
        -- destruct (IH _ H _ _ _ eq_refl Hrm) as [? | (u & Hin & Hup & Hok)];
             [now left | right; exists u; simpl; auto].
Qed.



(** X2. In every run, a call that removes a local artifact ([os.remove],
    [shutil.rmtree]) comes after an upload that succeeded. *)
Theorem removal_only_after_upload {W : Type}
    (exec : forall o : op, W -> W * (exn + ret o))
    (w : W) (tr : list event) (res : exn + unit) (w' : W) :
  run exec notebook w = (tr, res, w') ->
  forall before ev after,
    tr = before ++ ev :: after ->
    is_removal (ev_op ev) = true ->
    exists u, In u before /\ is_upload (ev_op u) = true /\ succeeded u.
Proof.
  intros H before ev after Heq Hrm.
  pose proof (notebook_run_invariants exec w) as I. rewrite H in I.
  destruct I as (_ & I & _).
  destruct (removals_follow_upload_sound _ _ I _ _ _ Heq Hrm) as [? | ?];
    [discriminate | assumption].
Qed.

(** In the run in which every call is answered, the first [os.remove]
    has the upload before it. *)
Lemma removal_only_after_upload_witness :
  exists u,
    In u (firstn 38 fresh_trace) /\ is_upload (ev_op u) = true /\ succeeded u.
Proof.
  apply (removal_only_after_upload exec_fresh 0 fresh_trace (inr tt)
           (snd fresh_run) eq_refl
           (firstn 38 fresh_trace) (ok (OsRemove "/tmp/model.zip") tt)
           (skipn 39 fresh_trace)).
  - vm_compute. reflexivity.
  - reflexivity.
Defined.

(** X3. A run that raises has not deleted the endpoint: no
    [delete_endpoint] call of it succeeded. *)
Theorem failed_run_keeps_endpoint {W : Type}
    (exec : forall o : op, W -> W * (exn + ret o))
    (w : W) (tr : list event) (e : exn) (w' : W) :
  run exec notebook w = (tr, inl e, w') ->
  forall ev, In ev tr -> is_delete (ev_op ev) = true -> ~ succeeded ev.
Proof.
  intros H ev Hin Hdel Hok.
  pose proof (notebook_run_invariants exec w) as I. rewrite H in I.
  destruct I as (_ & _ & I). specialize (I e eq_refl).
  rewrite forallb_forall in I. specialize (I ev Hin).
  rewrite Hdel in I. unfold has_succeeded in I. unfold succeeded in Hok.
  rewrite Hok in I. discriminate.
Qed.

(** The call that deletes the endpoint raises: the run ends in that
    error and its last call, the deletion, has not succeeded. *)
Lemma failed_run_keeps_endpoint_witness :
  ~ succeeded (List.last (fst (fst undeleted_run)) (ok (Magic "info") tt)).
Proof.
  apply (failed_run_keeps_endpoint (exec_faulty delete_fails) 0
           (fst (fst undeleted_run)) (ExternalError "ClientError")
           (snd undeleted_run)).
  - vm_compute. reflexivity.
  - vm_compute. repeat ((left; reflexivity) || right).
  - vm_compute. reflexivity.
Defined.

(** * Names and locations *)

Lemma append_nil_r (s : string) : s +:+ "" = s.
Proof.
  induction s as [|a s IH]; [reflexivity |].
  change (String a s +:+ "") with (String a (s +:+ "")). now rewrite IH.
Qed.

Lemma length_append (s t : string) :
  String.length (s +:+ t) = String.length s + String.length t.
Proof.
  induction s as [|a s IH]; [reflexivity |].
  change (String a s +:+ t) with (String a (s +:+ t)). simpl. now rewrite IH.
Qed.

(** X4. The S3 location cell 38 builds with [format] is the location
    cell 30 uploads to, bucket and key built with [os.path.join], for
    every bucket name, every key prefix that is not empty and does not end
    in a slash, and every file name that does not start with one. *)
Theorem model_data_is_upload_location (bucket prefix file : string) :
  prefix <> "" ->
  ends_with_slash prefix = false ->
  starts_with_slash file = false ->
  str_format "s3://{}/{}/{}" [bucket; prefix; file]
  = "s3://" +:+ bucket +:+ "/" +:+ os_path_join prefix file.
Proof.
  intros Hne Hend Hstart.
  change (str_format "s3://{}/{}/{}" [bucket; prefix; file])
    with ("s3://" +:+ bucket +:+ "/" +:+ prefix +:+ "/" +:+ file +:+ "").
  rewrite append_nil_r. unfold os_path_join. rewrite Hstart, Hend.
  destruct prefix; [contradiction | reflexivity].
Qed.

(** With the names of the notebook: [sparkml_data] is the bucket and key
    of the upload. *)
Lemma model_data_is_upload_location_witness :
  Hosting.sparkml_data
  = "s3://" +:+ "<your-output-bucket-name>" +:+ "/" +:+ Emr.file_name.
Proof.
  apply (model_data_is_upload_location "<your-output-bucket-name>"
           "emr/abalone/mleap" "model.tar.gz").
  - discriminate.
  - reflexivity.
  - reflexivity.
Defined.

(** X5. Model and endpoint names determine the time stamp they are built
    from, so runs started at different seconds get different names; and
    the model name of a run is not its endpoint name. *)
Theorem names_determine_timestamp (ts1 ts2 : string) :
  (Hosting.endpoint_name ts1 = Hosting.endpoint_name ts2 <-> ts1 = ts2) /\
  (Hosting.model_name ts1 = Hosting.model_name ts2 <-> ts1 = ts2) /\
  Hosting.model_name ts1 <> Hosting.endpoint_name ts1.
Proof.
  unfold Hosting.endpoint_name, Hosting.model_name.
  split; [| split].
  - split; [apply (inj (String.app _)) | now intros ->].
  - split; [apply (inj (String.app _)) | now intros ->].
  - change ("sparkml-abalone-ep-" +:+ ts1)
      with ("sparkml-abalone-" +:+ "ep-" +:+ ts1).
    intros H. apply (inj (String.app _)) in H.
    apply (f_equal String.length) in H. rewrite length_append in H.
    simpl in H. lia.
Qed.

(** * Requests *)

(** X6. In a complete run the three requests are a text payload with
    [CSVSerializer] and two dict payloads with [JSONSerializer], each
    payload of the kind its serializer takes as it is; and the data of
    both JSON requests has one value of the column's type for every input
    column of the schema in effect. *)
Theorem requests_are_well_formed {W : Type}
    (exec : forall o : op, W -> W * (exn + ret o))
    (w : W) (tr : list event) (w' : W) :
  run exec notebook w = (tr, inr tt, w') ->
  Forall (fun rq => serializer_fits rq = true) (requests tr) /\
  exists line json_payload override_payload,
    requests tr =
      [ (CSVSerializer, VStr line);
        (JSONSerializer, json_payload);
        (JSONSerializer, override_payload) ] /\
    data_fits_schema Hosting.schema json_payload = true /\
    data_fits_schema Hosting.schema override_payload = true.
Proof.
  intros Hrun. destruct (notebook_complete _ _ _ _ Hrun) as (ea & ha & ->).
  replace (requests (emr_trace ea ++ hosting_trace ha))
    with [ (CSVSerializer, Hosting.payload41);
           (JSONSerializer, Hosting.payload43);
           (JSONSerializer, Hosting.payload45) ] by reflexivity.
  split; [repeat constructor |].
  eexists _, _, _. split; [reflexivity |].
  split; reflexivity.
Qed.

Lemma requests_are_well_formed_witness :
  Forall (fun rq => serializer_fits rq = true) (requests fresh_trace) /\
  exists line json_payload override_payload,
    requests fresh_trace =
      [ (CSVSerializer, VStr line);
        (JSONSerializer, json_payload);
        (JSONSerializer, override_payload) ] /\
    data_fits_schema Hosting.schema json_payload = true /\
    data_fits_schema Hosting.schema override_payload = true.
Proof.
  apply (requests_are_well_formed exec_fresh 0 fresh_trace (snd fresh_run)).
  vm_compute. reflexivity.
Defined.

(** * What is serialized *)

(** X7. In a complete run the one bundle written is of the model that
    [fit] returned, the model whose transforms were evaluated, to
    [jar:file:/tmp/model.zip], with that model's transform of the
    validation part as the sample dataframe. *)
Theorem bundle_is_of_fitted_model {W : Type}
    (exec : forall o : op, W -> W * (exn + ret o))
    (w : W) (tr : list event) (w' : W) :
  run exec notebook w = (tr, inr tt, w') ->
  exists total train validation model transformed_train transformed_validation
         train_rmse validation_rmse,
    ml_events tr =
      [ ok (RandomSplit total [0.8%Q; 0.2%Q] None) (train, validation);
        ok (Fit Emr.pipeline train) model;
        ok (Transform model train) transformed_train;
        ok (Transform model validation) transformed_validation;
        ok (Evaluate Emr.evaluator transformed_train) train_rmse;
        ok (Evaluate Emr.evaluator transformed_validation) validation_rmse ] /\
    bundle_calls tr = [(model, "jar:file:/tmp/model.zip", transformed_validation)].
Proof.
  intros Hrun. destruct (notebook_complete _ _ _ _ Hrun) as (ea & ha & ->).
  exists (total_df ea), (train_df ea), (validation_df ea), (model ea),
    (transformed_train_df ea), (transformed_validation_df ea),
    (train_rmse ea), (validation_rmse ea).
  split; reflexivity.
Qed.

Lemma bundle_is_of_fitted_model_witness :
  exists total train validation model transformed_train transformed_validation
         train_rmse validation_rmse,
    ml_events fresh_trace =
      [ ok (RandomSplit total [0.8%Q; 0.2%Q] None) (train, validation);
        ok (Fit Emr.pipeline train) model;
        ok (Transform model train) transformed_train;
        ok (Transform model validation) transformed_validation;
        ok (Evaluate Emr.evaluator transformed_train) train_rmse;
        ok (Evaluate Emr.evaluator transformed_validation) validation_rmse ] /\
    bundle_calls fresh_trace
    = [(model, "jar:file:/tmp/model.zip", transformed_validation)].
Proof.
  apply (bundle_is_of_fitted_model exec_fresh 0 fresh_trace (snd fresh_run)).
  vm_compute. reflexivity.
Defined.

(** * The order of the stages *)

(** X8. Of all the orders in which the four stages of the pipeline can
    be put, the notebook's is the only one in which every stage finds its
    input columns when the pipeline is fitted on the CSV columns. *)
Theorem stage_order_is_forced (ss : list stage) :
  ss ≡ₚ stages Emr.pipeline ->
  stages_ready stage_fit_inputs (List.map sf_name Emr.schema) ss = true ->
  ss = stages Emr.pipeline.
Proof.
  intros Hperm Hready. symmetry in Hperm.
  apply permutations_Permutation in Hperm.
  assert (Hall : forallb
                   (fun ss' =>
                      implb (stages_ready stage_fit_inputs
                               (List.map sf_name Emr.schema) ss')
                        (bool_decide (ss' = stages Emr.pipeline)))
                   (permutations (stages Emr.pipeline)) = true)
    by (vm_compute; reflexivity).
  rewrite forallb_forall in Hall.
  apply list_elem_of_In in Hperm. specialize (Hall ss Hperm).
  rewrite Hready in Hall. simpl in Hall.
  now apply bool_decide_eq_true in Hall.
Qed.

Lemma stage_order_is_forced_witness :
  stages Emr.pipeline = stages Emr.pipeline.
Proof.
  apply (stage_order_is_forced (stages Emr.pipeline)).
  - reflexivity.
  - reflexivity.
Defined.

(** * Edge cases on the local disk *)

Section DiskEdges.

Context {W0 : Type}.
Variable exec0 : forall o : op, W0 -> W0 * (exn + ret o).
Variable bundle_of : PipelineModel -> list (path * entry).

Abbreviation step' := (disk_exec exec0 bundle_of).

Lemma step_tar_add_missing (h : nat) (src arcname : string) (w0 : W0)
    (fs : local) (archive : path) (ms : list (path * entry)) :
  open_tars fs !! h = Some archive ->
  disk fs !! archive = Some (EFile (Archive TarGzFormat ms)) ->
  walk (parse_path src) archive (disk fs) = None ->
  step' (TarAdd (TF h) src arcname) (w0, fs)
  = ((w0, fs), inl (FileNotFoundError src)).
Proof. intros H1 H2 H3. unfold disk_exec. simpl. now rewrite H1, H2, H3. Qed.

(** X10. The clean-up cell cannot be run twice: after a run that
    removed the three artifacts, a second run raises at its first call,
    [/tmp/model.zip] not being there, and changes nothing. *)
Theorem cleanup_is_not_repeatable (w0 : W0) (fs : local) (z t : blob) :
  disk fs !! model_zip = Some (EFile z) ->
  disk fs !! model_tar_gz = Some (EFile t) ->
  disk fs !! model_dir = Some EDir ->
  exists tr fs',
    run step' Emr.cell32 (w0, fs) = (tr, inr tt, (w0, fs')) /\
    run step' Emr.cell32 (w0, fs')
    = ([Ev (OsRemove "/tmp/model.zip") (inl (FileNotFoundError "/tmp/model.zip"))],
       inl (FileNotFoundError "/tmp/model.zip"),
       (w0, fs')).
Proof.
  intros Hzip Htar Hdir. eexists _, _. split.
  - unfold Emr.cell32. cbn [run].
    rewrite (step_remove _ _ "/tmp/model.zip" _ _ z) by exact Hzip.
    cbn [run].
    rewrite (step_remove _ _ "/tmp/model.tar.gz" _ _ t)
      by (cbn [set_disk disk]; rewrite parse_model_zip, parse_model_tar_gz;
          rewrite lookup_delete_ne by discriminate; exact Htar).
    cbn [run].
    rewrite step_rmtree
      by (cbn [set_disk disk];
          rewrite parse_model_zip, parse_model_tar_gz, parse_model_dir;
          rewrite !lookup_delete_ne by discriminate; exact Hdir).
    cbn [app]. reflexivity.
  - unfold Emr.cell32. cbn [run]. unfold disk_exec at 1.
    cbn [local_step snd fst set_disk disk].
    rewrite parse_model_zip, parse_model_tar_gz, parse_model_dir.
    rewrite remove_tree_lookup.
    rewrite decide_False by (intros [k Hk]; discriminate Hk).
    rewrite lookup_delete_ne by discriminate.
    rewrite lookup_delete_eq. reflexivity.
Qed.

(** X11. The clean-up cell stops at the first artifact that is
    missing and does not put back what it has removed: with the zip file
    there and the archive missing, the zip file is removed, the second
    call raises, and [/tmp/model] is left in place. *)
Theorem cleanup_stops_midway (w0 : W0) (fs : local) (z : blob) :
  disk fs !! model_zip = Some (EFile z) ->
  disk fs !! model_tar_gz = None ->
  run step' Emr.cell32 (w0, fs)
  = ([ Ev (OsRemove "/tmp/model.zip") (inr tt);
       Ev (OsRemove "/tmp/model.tar.gz")
         (inl (FileNotFoundError "/tmp/model.tar.gz")) ],
     inl (FileNotFoundError "/tmp/model.tar.gz"),
     (w0, set_disk fs (delete model_zip (disk fs)))) /\
  forall p, model_dir `prefix_of` p ->
            delete model_zip (disk fs) !! p = disk fs !! p.
Proof.
  intros Hzip Htar. split.
  - unfold Emr.cell32. cbn [run].
    rewrite (step_remove _ _ "/tmp/model.zip" _ _ z) by exact Hzip.
    cbn [run]. unfold disk_exec at 1.
    cbn [local_step snd fst set_disk disk].
    rewrite parse_model_zip, parse_model_tar_gz.
    rewrite lookup_delete_ne by discriminate. rewrite Htar. reflexivity.
  - intros p [k ->]. apply lookup_delete_ne. discriminate.
Qed.

(** X12. Without [/tmp/model.zip] the repackaging cell raises when it
    opens the zip file, after the import, and creates nothing: the disk
    and the object store are as they were. *)
Theorem repackage_needs_the_zip (w0 : W0) (fs : local) :
  (forall m w, exists w1, exec0 (Import m) w = (w1, inr tt)) ->
  disk fs !! model_zip = None ->
  exists w1,
    run step' Emr.cell28 (w0, fs)
    = ([ Ev (Import "zipfile") (inr tt);
         Ev (ZipOpen "/tmp/model.zip") (inl (FileNotFoundError "/tmp/model.zip")) ],
       inl (FileNotFoundError "/tmp/model.zip"),
       (w1, fs)).
Proof.
  intros Himp Hzip. destruct (Himp "zipfile" w0) as [w1 I1]. exists w1.
  unfold Emr.cell28, With. cbn [run].
  rewrite (step_import _ _ _ _ _ _ I1).
  unfold disk_exec at 1. cbn [local_step snd fst].
  rewrite parse_model_zip, Hzip. reflexivity.
Qed.

(** X13. When the extracted bundle has [bundle.json] but no [root],
    the second [tar.add] raises; the archive is closed on the way out,
    and [/tmp/model.tar.gz] stays on disk with the [bundle.json] tree
    alone in it: nothing removes the partial archive. *)
Theorem missing_root_leaves_partial_archive (w0 : W0) (fs : local)
    (zs : list (path * entry)) (d1 : gmap path entry) :
  (forall m w, exists w1, exec0 (Import m) w = (w1, inr tt)) ->
  disk fs !! model_zip = Some (EFile (Archive ZipFormat zs)) ->
  extractall zs model_dir (disk fs) = inr d1 ->
  is_Some (d1 !! (model_dir ++ ["bundle.json"])) ->
  d1 !! (model_dir ++ ["root"]) = None ->
  d1 !! model_tar_gz <> Some EDir ->
  exists tr w0' fs' ms,
    run step' Emr.cell28 (w0, fs)
    = (tr, inl (FileNotFoundError "/tmp/model/root"), (w0', fs')) /\
    closed tr = opened tr /\
    disk fs' = <[model_tar_gz := EFile (Archive TarGzFormat ms)]> d1 /\
    forall name e,
      (name, e) ∈ ms <->
      exists rel,
        name = "bundle.json" :: rel /\
        in_tree d1 (model_dir ++ ["bundle.json"]) rel e.
Proof.
  intros Himp Hzip Hext Hbundle Hroot Htar.
  destruct (Himp "zipfile" w0) as [w1 I1].
  destruct (Himp "tarfile" w1) as [w2 I2].
  set (d2 := <[model_tar_gz := EFile (Archive TarGzFormat [])]> d1).
  destruct (walk_is_Some (model_dir ++ ["bundle.json"]) model_tar_gz d2)
    as [added1 Hw1].
  { unfold d2. now rewrite lookup_insert_ne by discriminate. }
  set (ms1 := [] ++ rebase ["bundle.json"] added1).
  eexists _, w2, _, ms1.
  split; [| split; [| split]].
  - unfold Emr.cell28, With. cbn [run].
    rewrite (step_import _ _ _ _ _ _ I1).
    rewrite (step_zip_open _ _ "/tmp/model.zip" _ _ _ Hzip). cbn [run].
    erewrite step_extractall;
      [| apply list_lookup_middle; reflexivity | exact Hext].
    cbn [run set_disk disk open_zips open_tars objects app].
    unfold disk_exec at 1. cbn [local_step snd fst].
    cbn [run app].
    rewrite (step_import _ _ _ _ _ _ I2).
    rewrite step_tar_open by exact Htar.
    cbn [run set_disk disk open_zips open_tars objects app].
    erewrite step_tar_add;
      [| apply list_lookup_middle; reflexivity
       | apply lookup_insert_eq
       | exact Hw1].
    cbn [run set_disk disk open_zips open_tars objects app].
    erewrite step_tar_add_missing;
      [| apply list_lookup_middle; reflexivity
       | apply lookup_insert_eq
       | ].
    2:{ cbn [set_disk disk].
        change (parse_path "/tmp/model/root") with (model_dir ++ ["root"]).
        unfold walk. rewrite decide_False by discriminate.
        rewrite lookup_insert_ne by discriminate.
        unfold d2. rewrite lookup_insert_ne by discriminate.
        now rewrite Hroot. }
    cbn [run app]. unfold disk_exec at 1. cbn [local_step snd fst].
    reflexivity.
  - reflexivity.
  - cbn [disk]. unfold d2. now rewrite insert_insert_eq.
  - intros name e. unfold ms1. rewrite app_nil_l, elem_of_rebase.
    split.
    + intros [rel [-> Hin]]. exists rel. split; [reflexivity |].
      apply (elem_of_walk _ _ _ _ (model_tar_gz_outside "bundle.json" []) Hw1)
        in Hin as [Hin _].
      unfold d2 in Hin. now apply in_tree_insert_outside in Hin.
    + intros [rel [-> Hin]]. exists rel. split; [reflexivity |].
      apply (elem_of_walk _ _ _ _ (model_tar_gz_outside "bundle.json" []) Hw1).
      split; [| rewrite <- app_assoc; apply model_tar_gz_outside].
      unfold d2. now apply in_tree_insert_outside.
Qed.

End DiskEdges.

(** The clean-up cell twice on the sample disk, after the upload. *)
Lemma cleanup_is_not_repeatable_witness :
  exists tr fs',
    run sample_exec Emr.cell32 (0, sample_uploaded) = (tr, inr tt, (0, fs')) /\
    run sample_exec Emr.cell32 (0, fs')
    = ([Ev (OsRemove "/tmp/model.zip") (inl (FileNotFoundError "/tmp/model.zip"))],
       inl (FileNotFoundError "/tmp/model.zip"),
       (0, fs')).
Proof.
  apply (cleanup_is_not_repeatable exec_fresh (fun _ => sample_bundle)
           0 sample_uploaded
           (Archive ZipFormat sample_bundle)
           (Archive TarGzFormat
              match disk sample_uploaded !! model_tar_gz with
              | Some (EFile (Archive _ ms)) => ms
              | _ => []
              end)).
  - vm_compute. reflexivity.
  - vm_compute. reflexivity.
  - vm_compute. reflexivity.
Defined.

(** The clean-up cell on the sample disk before the repackaging: the
    zip file is there, the archive is not. *)
Lemma cleanup_stops_midway_witness :
  run sample_exec Emr.cell32 (0, sample_serialized)
  = ([ Ev (OsRemove "/tmp/model.zip") (inr tt);
       Ev (OsRemove "/tmp/model.tar.gz")
         (inl (FileNotFoundError "/tmp/model.tar.gz")) ],
     inl (FileNotFoundError "/tmp/model.tar.gz"),
     (0, set_disk sample_serialized (delete model_zip (disk sample_serialized)))) /\
  forall p, model_dir `prefix_of` p ->
            delete model_zip (disk sample_serialized) !! p
            = disk sample_serialized !! p.
Proof.
  apply (cleanup_stops_midway exec_fresh (fun _ => sample_bundle)
           0 sample_serialized (Archive ZipFormat sample_bundle)).
  - vm_compute. reflexivity.
  - vm_compute. reflexivity.
Defined.

(** The repackaging cell on the sample disk before anything is written. *)
Lemma repackage_needs_the_zip_witness :
  exists w1,
    run sample_exec Emr.cell28 (0, sample_disk)
    = ([ Ev (Import "zipfile") (inr tt);
         Ev (ZipOpen "/tmp/model.zip") (inl (FileNotFoundError "/tmp/model.zip")) ],
       inl (FileNotFoundError "/tmp/model.zip"),
       (w1, sample_disk)).
Proof.
  apply (repackage_needs_the_zip exec_fresh (fun _ => sample_bundle) 0 sample_disk).
  - intros m w. eexists. reflexivity.
  - vm_compute. reflexivity.
Defined.

(** The repackaging cell on a disk whose zip file holds [bundle.json]
    alone. *)
Lemma missing_root_leaves_partial_archive_witness :
  exists tr w0' fs' ms,
    run sample_exec Emr.cell28 (0, sample_truncated)
    = (tr, inl (FileNotFoundError "/tmp/model/root"), (w0', fs')) /\
    closed tr = opened tr /\
    disk fs' = <[model_tar_gz := EFile (Archive TarGzFormat ms)]>
                 sample_truncated_extracted /\
    forall name e,
      (name, e) ∈ ms <->
      exists rel,
        name = "bundle.json" :: rel /\
        in_tree sample_truncated_extracted (model_dir ++ ["bundle.json"]) rel e.
Proof.
  apply (missing_root_leaves_partial_archive exec_fresh (fun _ => sample_bundle)
           0 sample_truncated sample_manifest_only sample_truncated_extracted).
  - intros m w. eexists. reflexivity.
  - vm_compute. reflexivity.
  - apply (inr_by_evaluation
             (extractall sample_manifest_only model_dir (disk sample_truncated)) ∅).
    vm_compute. reflexivity.
  - vm_compute. eexists. reflexivity.
  - vm_compute. reflexivity.
  - vm_compute. discriminate.
Defined.

(** * The local cells end to end *)

Section LocalCells.

Context {W0 : Type}.
Variable exec0 : forall o : op, W0 -> W0 * (exn + ret o).
Variable bundle_of : PipelineModel -> list (path * entry).

Abbreviation lstep := (disk_exec exec0 bundle_of).

(** X14. Serialize, repackage, upload, clean up: on a disk with a
    [/tmp] directory and none of the three artifacts, and for a bundle
    with [bundle.json] and [root] whose extraction succeeds, the four
    cells return, the disk is exactly as before, and the object store
    has gained one object, a tar.gz archive under the model key. *)
Theorem local_cells_leave_no_residue (w0 : W0) (fs : local)
    (m : PipelineModel) (df : DataFrame) (d1 : gmap path entry)
    (manifest root : entry) :
  (forall m w, exists w1, exec0 (Import m) w = (w1, inr tt)) ->
  (forall w, exists w1 s3, exec0 (Boto3Resource "s3") w = (w1, inr s3)) ->
  disk fs !! ["tmp"] = Some EDir ->
  disk fs !! model_zip = None ->
  disk fs !! model_tar_gz = None ->
  (forall p, model_dir `prefix_of` p -> disk fs !! p = None) ->
  (["bundle.json"], manifest) ∈ bundle_of m ->
  (["root"], root) ∈ bundle_of m ->
  extractall (bundle_of m) model_dir
    (<[model_zip := EFile (Archive ZipFormat (bundle_of m))]> (disk fs)) = inr d1 ->
  exists tr w0' fs' ms,
    run lstep
      (Emr.cell26 m df ;; Emr.cell28 ;; Emr.cell30 ;; Emr.cell32) (w0, fs)
    = (tr, inr tt, (w0', fs')) /\
    disk fs' = disk fs /\
    objects fs'
    = <[("<your-output-bucket-name>", "emr/abalone/mleap/model.tar.gz")
        := Archive TarGzFormat ms]> (objects fs).
Proof.
  intros Himp Hboto Htmp Hzip Htar Hdir Hmanifest Hroot Hext.
  set (fs1 := set_disk fs
                (<[model_zip := EFile (Archive ZipFormat (bundle_of m))]> (disk fs))).
  assert (Habove : forall r, r <> [] -> r `prefix_of` model_dir ->
                             r <> model_dir -> is_Some (disk fs1 !! r)).
  { intros r Hr [k Hk] Hne.
    destruct r as [|a [|b [|c r]]]; try contradiction;
      inversion Hk; subst; try contradiction.
    exists EDir. cbn [fs1 set_disk disk].
    now rewrite lookup_insert_ne by discriminate. }
  assert (Hframe : forall q, ~ model_dir `prefix_of` q ->
                             d1 !! q = disk fs1 !! q).
  { intros q Hq. now apply (extractall_frame _ _ _ _ _ Hext). }
  assert (Hd1_tar : d1 !! model_tar_gz = None).
  { rewrite Hframe by (intros [k Hk]; discriminate Hk).
    cbn [fs1 set_disk disk]. now rewrite lookup_insert_ne by discriminate. }
  assert (Hd1_zip : d1 !! model_zip
                    = Some (EFile (Archive ZipFormat (bundle_of m)))).
  { rewrite Hframe by (intros [k Hk]; discriminate Hk).
    cbn [fs1 set_disk disk]. apply lookup_insert_eq. }
  assert (Hd1_dir : d1 !! model_dir = Some EDir).
  { apply (extractall_makes_dest _ _ _ _ _ _ Hext Hmanifest);
      [vm_compute |]; discriminate. }
  destruct (cell28_returns exec0 bundle_of w0 fs1 (bundle_of m) d1 Himp)
    as (tr28 & w2 & ms & R28 & _ & _).
  { cbn [fs1 set_disk disk]. apply lookup_insert_eq. }
  { exact Hext. }
  { exact (extractall_is_Some _ _ _ _ _ _ Hext Hmanifest). }
  { exact (extractall_is_Some _ _ _ _ _ _ Hext Hroot). }
  { rewrite Hd1_tar. discriminate. }
  destruct (Hboto w2) as (w3 & s3 & B).
  eexists _, w3, _, ms. split; [| split].
  - rewrite run_Bind.
    assert (R26 : run lstep (Emr.cell26 m df) (w0, fs)
                  = ([Ev (SerializeToBundle m "jar:file:/tmp/model.zip" df) (inr tt)],
                     inr tt, (w0, fs1))).
    { unfold Emr.cell26. cbn [run]. unfold disk_exec.
      cbn [local_step snd fst].
      change (strip_prefix "jar:file:" "jar:file:/tmp/model.zip")
        with (Some "/tmp/model.zip").
      cbv iota beta. rewrite parse_model_zip, Hzip. reflexivity. }
    rewrite R26. cbv iota beta.
    rewrite run_Bind, R28. cbv iota beta.
    unfold Emr.cell30, Emr.cell32. cbn [run].
    unfold disk_exec at 1. cbn [local_step snd fst]. rewrite B.
    unfold disk_exec at 1.
    cbn [local_step snd fst set_disk disk open_zips open_tars objects].
    rewrite parse_model_tar_gz, lookup_insert_eq.
    cbn [run].
    rewrite (step_remove _ _ "/tmp/model.zip" _ _ (Archive ZipFormat (bundle_of m)))
      by (cbn [disk]; rewrite parse_model_zip;
          rewrite lookup_insert_ne by discriminate; exact Hd1_zip).
    cbn [run].
    rewrite (step_remove _ _ "/tmp/model.tar.gz" _ _ (Archive TarGzFormat ms))
      by (cbn [set_disk disk]; rewrite parse_model_zip, parse_model_tar_gz;
          rewrite lookup_delete_ne by discriminate; apply lookup_insert_eq).
    cbn [run].
    rewrite step_rmtree
      by (cbn [set_disk disk];
          rewrite parse_model_zip, parse_model_tar_gz, parse_model_dir;
          rewrite !lookup_delete_ne by discriminate;
          rewrite lookup_insert_ne by discriminate; exact Hd1_dir).
    reflexivity.
  - cbn [set_disk disk].
    rewrite parse_model_zip, parse_model_tar_gz, parse_model_dir.
    apply map_eq. intros q. rewrite remove_tree_lookup.
    destruct (decide (model_dir `prefix_of` q)) as [Hq | Hq];
      [symmetry; now apply Hdir |].
    destruct (decide (q = model_tar_gz)) as [-> | Hqt];
      [rewrite lookup_delete_eq; now symmetry |].
    rewrite lookup_delete_ne by congruence.
    destruct (decide (q = model_zip)) as [-> | Hqz];
      [rewrite lookup_delete_eq; now symmetry |].
    rewrite lookup_delete_ne by congruence.
    rewrite lookup_insert_ne by congruence.
    rewrite Hframe by assumption. cbn [fs1 set_disk disk].
    now rewrite lookup_insert_ne by congruence.
  - reflexivity.
Qed.

End LocalCells.

(** The four local cells on the sample disk. *)
Lemma local_cells_leave_no_residue_witness :
  exists tr w0' fs' ms,
    run sample_exec
      (Emr.cell26 (PM 0) (DF 1) ;; Emr.cell28 ;; Emr.cell30 ;; Emr.cell32)
      (0, sample_disk)
    = (tr, inr tt, (w0', fs')) /\
    disk fs' = disk sample_disk /\
    objects fs'
    = <[("<your-output-bucket-name>", "emr/abalone/mleap/model.tar.gz")
        := Archive TarGzFormat ms]> (objects sample_disk).
Proof.
  apply (local_cells_leave_no_residue exec_fresh (fun _ => sample_bundle)
           0 sample_disk (PM 0) (DF 1) sample_extracted
           (EFile (Raw "{}")) EDir).
  - intros m w. eexists. reflexivity.
  - intros w. eexists _, _. reflexivity.
  - vm_compute. reflexivity.
  - vm_compute. reflexivity.
  - vm_compute. reflexivity.
  - intros p [k ->]. apply lookup_singleton_ne. discriminate.
  - apply list_elem_of_In. simpl. auto.
  - apply list_elem_of_In. simpl. auto.
  - apply (inr_by_evaluation
             (extractall sample_bundle model_dir (disk sample_serialized)) ∅).
    vm_compute. reflexivity.
Defined.

(** * The upload and the output *)

Lemma preceded_by_sound (p q : event -> bool) (tr : list event) :
  forall seen,
    preceded_by p q seen tr = true ->
    forall before ev after,
      tr = before ++ ev :: after ->
      q ev = true ->
      seen = true \/ exists u, In u before /\ p u = true.
Proof.
  induction tr as [|x tr IH]; intros seen H before ev after Heq Hq.
  - destruct before; discriminate.
  - simpl in H. apply andb_true_iff in H as [Hx H].
    destruct before as [|b before]; simpl in Heq; inversion Heq; subst; clear Heq.
    + rewrite Hq in Hx. now left.
    + destruct (IH _ H _ _ _ eq_refl Hq) as [Hs | (u & Hin & Hu)].
      * apply orb_true_iff in Hs as [? | Hb]; [now left |].
        right. exists b. simpl. auto.
      * right. exists u. simpl. auto.
Qed.

Section UploadGuard.

Context {W : Type}.
Variable exec : forall o : op, W -> W * (exn + ret o).

Lemma notebook_upload_is_guarded (w : W) :
  let '(tr, _, _) := run exec notebook w in upload_is_guarded tr = true.
Proof. run_cases exec; reflexivity. Qed.

End UploadGuard.

(** X15. In every run, when the upload is called the archive is
    complete and closed: the extraction, the close of the zip file, the
    adding of [bundle.json] and of [root] and the close of the archive
    have each succeeded before. *)
Theorem upload_only_of_closed_archive {W : Type}
    (exec : forall o : op, W -> W * (exn + ret o))
    (w : W) (tr : list event) (res : exn + unit) (w' : W) :
  run exec notebook w = (tr, res, w') ->
  forall before ev after,
    tr = before ++ ev :: after ->
    is_upload (ev_op ev) = true ->
    forall step,
      In step packaging_steps ->
      exists u, In u before /\ step (ev_op u) = true /\ succeeded u.
Proof.
  intros H before ev after Heq Hup step Hstep.
  pose proof (notebook_upload_is_guarded exec w) as G. rewrite H in G.
  unfold upload_is_guarded in G. rewrite forallb_forall in G.
  specialize (G step Hstep).
  destruct (preceded_by_sound _ _ _ _ G _ _ _ Heq Hup) as [? | (u & Hin & Hu)];
    [discriminate |].
  apply andb_true_iff in Hu as [Hs Hok].
  exists u. split; [assumption | split; [assumption |]].
  unfold has_succeeded in Hok. unfold succeeded.
  now destruct (ev_error u).
Qed.

(** In the run in which every call is answered, the archive has been
    closed before the upload. *)
Lemma upload_only_of_closed_archive_witness :
  exists u,
    In u (firstn 37 fresh_trace) /\ is_tar_exit (ev_op u) = true /\ succeeded u.
Proof.
  apply (upload_only_of_closed_archive exec_fresh 0 fresh_trace (inr tt)
           (snd fresh_run) eq_refl
           (firstn 37 fresh_trace)
           (nth 37 fresh_trace (ok (Magic "info") tt))
           (skipn 38 fresh_trace)).
  - vm_compute. reflexivity.
  - reflexivity.
  - simpl. auto 10.
Defined.

(** X16. The output calls of a complete run ([show] and [print]) put
    out, in this order: the first five rows of the dataframe read from the
    CSV; the first five rows of the prediction column of the transformed
    validation split; under [Train RMSE] the evaluation of the transformed
    training split and under [Validation RMSE] that of the transformed
    validation split; the schema text; and the response of each of the
    three predictions in turn. *)
Theorem displayed_values_are_computed {W : Type}
    (exec : forall o : op, W -> W * (exn + ret o))
    (w : W) (tr : list event) (w' : W) :
  run exec notebook w = (tr, inr tt, w') ->
  exists file total train validation model transformed_train
         transformed_validation shown train_rmse validation_rmse
         response41 response43 response45,
    displayed tr =
      [ OutTable total 5;
        OutTable shown 5;
        OutPrint (PrFormat "Train RMSE = %g" train_rmse);
        OutPrint (PrFormat "Validation RMSE = %g" validation_rmse);
        OutPrint (PrStr Hosting.schema_json);
        OutPrint (PrResponse response41);
        OutPrint (PrResponse response43);
        OutPrint (PrResponse response45) ] /\
    In (ok (ReadCsv file false Emr.schema) total) tr /\
    In (ok (RandomSplit total [0.8%Q; 0.2%Q] None) (train, validation)) tr /\
    In (ok (Transform model train) transformed_train) tr /\
    In (ok (Evaluate Emr.evaluator transformed_train) train_rmse) tr /\
    In (ok (Transform model validation) transformed_validation) tr /\
    In (ok (Select transformed_validation ["prediction"]) shown) tr /\
    In (ok (Evaluate Emr.evaluator transformed_validation) validation_rmse) tr /\
    predictions tr =
      [ (CSVSerializer, Hosting.payload41, response41);
        (JSONSerializer, Hosting.payload43, response43);
        (JSONSerializer, Hosting.payload45, response45) ].
Proof.
  intros Hrun. destruct (notebook_complete _ _ _ _ Hrun) as (ea & ha & ->).
  exists "s3://<your-input-bucket>/abalone/abalone.csv",
    (total_df ea), (train_df ea), (validation_df ea), (model ea),
    (transformed_train_df ea), (transformed_validation_df ea), (shown_df ea),
    (train_rmse ea), (validation_rmse ea),
    (response41 ha), (response43 ha), (response45 ha).
  split; [reflexivity |].
  repeat (split;
          [apply in_or_app; left; cbn [emr_trace In];
           repeat ((left; reflexivity) || right) |]).
  reflexivity.
Qed.

Lemma displayed_values_are_computed_witness :
  exists file total train validation model transformed_train
         transformed_validation shown train_rmse validation_rmse
         response41 response43 response45,
    displayed fresh_trace =
      [ OutTable total 5;
        OutTable shown 5;
        OutPrint (PrFormat "Train RMSE = %g" train_rmse);
        OutPrint (PrFormat "Validation RMSE = %g" validation_rmse);
        OutPrint (PrStr Hosting.schema_json);
        OutPrint (PrResponse response41);
        OutPrint (PrResponse response43);
        OutPrint (PrResponse response45) ] /\
    In (ok (ReadCsv file false Emr.schema) total) fresh_trace /\
    In (ok (RandomSplit total [0.8%Q; 0.2%Q] None) (train, validation))
       fresh_trace /\
    In (ok (Transform model train) transformed_train) fresh_trace /\
    In (ok (Evaluate Emr.evaluator transformed_train) train_rmse) fresh_trace /\
    In (ok (Transform model validation) transformed_validation) fresh_trace /\
    In (ok (Select transformed_validation ["prediction"]) shown) fresh_trace /\
    In (ok (Evaluate Emr.evaluator transformed_validation) validation_rmse)
       fresh_trace /\
    predictions fresh_trace =
      [ (CSVSerializer, Hosting.payload41, response41);
        (JSONSerializer, Hosting.payload43, response43);
        (JSONSerializer, Hosting.payload45, response45) ].
Proof.
  apply (displayed_values_are_computed exec_fresh 0 fresh_trace (snd fresh_run)).
  vm_compute. reflexivity.
Defined.
